(** * Drift-analysis streaming sessions: the session store, the event
    decoder and the drift-count projection

    A shallow embedding of
    - [src/context/DriftAssistProvider.tsx]: the session store
      ([handleStreamingUpdate], [startAnalysis], [stopAnalysis], ...), and
    - [src/components/DriftAssist/S3StreamingAnalysis.tsx]: the component
      that drives one analysis ([startAnalysis], [getDriftCount]),
    together with the properties of the two that the design document states.

    Conventions of the embedding.
    - Events are the values [JSON.parse] returns: the type [json].  A value
      that may be [undefined] is an [option json] with [None] for
      [undefined]; an object field that is absent and one that holds
      [undefined] read the same in JavaScript and are one and the same here.
    - JSON numbers are integers ([Z]); fractions and exponents are outside
      the embedding.  Strings are sequences of bytes, so text is ASCII.
    - A [TypeError] (reading a property of [null] or [undefined], or
      converting to a property key an object that has no primitive value)
      is a result of its own: see [result] and [ToString].
    - Property names inherited from [Object.prototype] ([constructor],
      [__proto__], ...) are not modelled as keys. *)

From Stdlib Require Import ZArith String Ascii List Bool Lia.
From stdpp Require Import base tactics option list strings gmap pretty.

Local Open Scope Z_scope.
Local Set Warnings "-register-all".

(** ** JavaScript values *)

Module JS.

Inductive json : Type :=
| JNull
| JBool (b : bool)
| JNum (n : Z)
| JStr (s : string)
| JArr (elems : list json)
| JObj (props : list (string * json)).

(** A value that may be [undefined]. *)
Abbreviation value := (option json).
Abbreviation undefined := (@None json).

(** The outcome of code that may throw a [TypeError]. *)
Inductive result (A : Type) : Type :=
| Ok (a : A)
| TypeError.
Arguments Ok {A} a.
Arguments TypeError {A}.

Definition bind {A B} (r : result A) (f : A -> result B) : result B :=
  match r with
  | Ok a => f a
  | TypeError => TypeError
  end.

Definition rmap {A B} (f : A -> B) (r : result A) : result B :=
  bind r (fun a => Ok (f a)).

(** Truthiness: [undefined], [null], [false], [0] and the empty string are
    falsy, everything else (arrays and objects included) is truthy. *)
Definition truthy (v : value) : bool :=
  match v with
  | None => false
  | Some JNull => false
  | Some (JBool b) => b
  | Some (JNum n) => negb (n =? 0)
  | Some (JStr s) => negb (String.eqb s "")
  | Some (JArr _) => true
  | Some (JObj _) => true
  end.

(** [a || b] on values. *)
Definition or_else (a b : value) : value := if truthy a then a else b.

(** The properties of an object are kept in enumeration order, each key
    once; a lookup takes the first entry under the key. *)
Fixpoint lookup_prop (k : string) (props : list (string * json)) : value :=
  match props with
  | [] => None
  | (k', v) :: rest => if String.eqb k k' then Some v else lookup_prop k rest
  end.

(** [v.k] for a [v] that is neither [null] nor [undefined] and a name [k]
    that is no index and not [length]: only objects have such a property. *)
Definition member (v : json) (k : string) : value :=
  match v with
  | JObj props => lookup_prop k props
  | _ => None
  end.

(** [v?.k] *)
Definition member_opt (v : value) (k : string) : value :=
  match v with
  | Some x => member x k
  | None => None
  end.

(** [v.k], which throws on [null] and [undefined]. *)
Definition get (v : value) (k : string) : result value :=
  match v with
  | None => TypeError
  | Some JNull => TypeError
  | Some x => Ok (member x k)
  end.

(** [String(v)], as used when a value becomes a property key or the message
    of an [Error].  An object or an array is first converted to a
    primitive: its [toString] is called when that is a function, else its
    [valueOf].  For an object made by [JSON.parse] the two are those of
    [Object.prototype], unless the object has a property of that name of
    its own, which then is data and not a function.  So an object with an
    own [toString] has no callable [toString], its [valueOf] gives the
    object back, and the conversion throws a [TypeError]; any other object
    gives the text [[object Object]].  An array is joined with commas
    ([Array.prototype.join]), each element converted in turn, [null] giving
    the empty text. *)
Fixpoint ToString (v : json) : result string :=
  match v with
  | JNull => Ok "null"
  | JBool true => Ok "true"
  | JBool false => Ok "false"
  | JNum n => Ok (pretty n)
  | JStr s => Ok s
  | JArr elems =>
      let fix join (l : list json) : result string :=
        match l with
        | [] => Ok ""
        | x :: rest =>
            bind (match x with JNull => Ok "" | _ => ToString x end)
              (fun sx =>
                 match rest with
                 | [] => Ok sx
                 | _ => bind (join rest) (fun sr => Ok (sx +:+ "," +:+ sr))
                 end)
        end in
      join elems
  | JObj props =>
      match lookup_prop "toString" props with
      | Some _ => TypeError
      | None => Ok "[object Object]"
      end
  end.

(** The key of [o[v]] and of [{[v]: ...}]. *)
Definition ToPropertyKey (v : value) : result string :=
  match v with
  | None => Ok "undefined"
  | Some x => ToString x
  end.

(** [Object.entries(v)] for a truthy [v]: the properties of an object, the
    indexed elements of an array, the indexed characters of a string, and
    nothing for a number or a boolean. *)
Definition Object_entries (v : json) : list (string * json) :=
  match v with
  | JObj props => props
  | JArr elems => imap (fun i x => (pretty i, x)) elems
  | JStr s =>
      imap (fun i c => (pretty i, JStr (String c EmptyString)))
           (String.list_ascii_of_string s)
  | _ => []
  end.

Definition Object_keys (v : json) : list string :=
  (Object_entries v).*1.

(** [Array.isArray(v)] *)
Definition isArray (v : value) : bool :=
  match v with
  | Some (JArr _) => true
  | _ => false
  end.

(** [v === s] for a string literal [s]. *)
Definition is_string (v : value) (s : string) : bool :=
  match v with
  | Some (JStr s') => String.eqb s' s
  | _ => false
  end.

End JS.

Notation "'try!' x := r 'in' k" := (JS.bind r (fun x => k))
  (at level 10, x name, r at level 100, k at level 200).

(** ** The platform's [JSON.parse]

    The decoder below takes the parser as an argument; this is the one used
    to run it on concrete text.  It accepts the JSON grammar with integer
    numbers, the two-character escapes and [\u00XX] escapes of ASCII
    characters; [None] stands for the [SyntaxError] the platform throws.
    Index-like keys are kept in source order. *)

Module JSON.
Import JS.

Definition quote : ascii := "034"%char.
Definition backslash : ascii := "092"%char.
Definition newline : ascii := "010"%char.

Definition is_ws (c : ascii) : bool :=
  Ascii.eqb c " " || Ascii.eqb c "009" || Ascii.eqb c "010" || Ascii.eqb c "013".

Fixpoint skip_ws (s : string) : string :=
  match s with
  | String c r => if is_ws c then skip_ws r else s
  | EmptyString => EmptyString
  end.

Definition digit_of (c : ascii) : option Z :=
  let n := Z.of_nat (nat_of_ascii c) in
  if (48 <=? n) && (n <=? 57) then Some (n - 48) else None.

Definition hex_of (c : ascii) : option Z :=
  let n := Z.of_nat (nat_of_ascii c) in
  if (48 <=? n) && (n <=? 57) then Some (n - 48)
  else if (65 <=? n) && (n <=? 70) then Some (n - 55)
  else if (97 <=? n) && (n <=? 102) then Some (n - 87)
  else None.

Fixpoint digits (acc : Z) (s : string) : Z * string :=
  match s with
  | String c r =>
      match digit_of c with
      | Some d => digits (acc * 10 + d) r
      | None => (acc, s)
      end
  | EmptyString => (acc, EmptyString)
  end.

(** An integer without sign: [0], or a digit from 1 to 9 followed by
    digits.  A fraction or an exponent after it is refused. *)
Definition parse_nat (s : string) : option (Z * string) :=
  match s with
  | String c r =>
      match digit_of c with
      | Some d =>
          let '(n, rest) := if d =? 0 then (0, r) else digits d r in
          match rest with
          | String c' _ =>
              if Ascii.eqb c' "." || Ascii.eqb c' "e" || Ascii.eqb c' "E"
              then None else Some (n, rest)
          | EmptyString => Some (n, rest)
          end
      | None => None
      end
  | EmptyString => None
  end.

Definition expect (lit s : string) : option string :=
  if String.prefix lit s
  then Some (String.substring (String.length lit)
                              (String.length s - String.length lit) s)
  else None.

(** The characters of a string literal after its opening quote, up to the
    closing one. *)
Fixpoint parse_chars (s : string) : option (string * string) :=
  match s with
  | EmptyString => None
  | String c r =>
      if Ascii.eqb c quote then Some (EmptyString, r)
      else if Ascii.eqb c backslash then
        match r with
        | String e r' =>
            let simple (x : ascii) :=
              match parse_chars r' with
              | Some (t, rest) => Some (String x t, rest)
              | None => None
              end in
            if Ascii.eqb e quote then simple quote
            else if Ascii.eqb e backslash then simple backslash
            else if Ascii.eqb e "/" then simple "/"%char
            else if Ascii.eqb e "b" then simple "008"%char
            else if Ascii.eqb e "f" then simple "012"%char
            else if Ascii.eqb e "n" then simple "010"%char
            else if Ascii.eqb e "r" then simple "013"%char
            else if Ascii.eqb e "t" then simple "009"%char
            else if Ascii.eqb e "u" then
              match r' with
              | String h1 (String h2 (String h3 (String h4 r''))) =>
                  match hex_of h1, hex_of h2, hex_of h3, hex_of h4 with
                  | Some 0, Some 0, Some a, Some b =>
                      if a <? 8 then
                        match parse_chars r'' with
                        | Some (t, rest) =>
                            Some (String (ascii_of_nat (Z.to_nat (a * 16 + b))) t,
                                  rest)
                        | None => None
                        end
                      else None
                  | _, _, _, _ => None
                  end
              | _ => None
              end
            else None
        | EmptyString => None
        end
      else if (nat_of_ascii c <? 32)%nat then None
      else
        match parse_chars r with
        | Some (t, rest) => Some (String c t, rest)
        | None => None
        end
  end.

(** [obj[k] = v] while the object is built: a key met again keeps its
    place and takes the new value. *)
Fixpoint set_prop (k : string) (v : json) (props : list (string * json))
  : list (string * json) :=
  match props with
  | [] => [(k, v)]
  | (k', v') :: rest =>
      if String.eqb k k' then (k, v) :: rest else (k', v') :: set_prop k v rest
  end.

Fixpoint parse_value (fuel : nat) (s : string) : option (json * string) :=
  match fuel with
  | O => None
  | S n =>
      match skip_ws s with
      | EmptyString => None
      | String c r =>
          if Ascii.eqb c "{" then
            match skip_ws r with
            | String "}" r' => Some (JObj [], r')
            | _ => parse_members n [] r
            end
          else if Ascii.eqb c "[" then
            match skip_ws r with
            | String "]" r' => Some (JArr [], r')
            | _ => parse_elements n [] r
            end
          else if Ascii.eqb c quote then
            match parse_chars r with
            | Some (t, rest) => Some (JStr t, rest)
            | None => None
            end
          else if Ascii.eqb c "-" then
            match parse_nat r with
            | Some (k, rest) => Some (JNum (- k), rest)
            | None => None
            end
          else if Ascii.eqb c "t" then
            match expect "rue" r with Some rest => Some (JBool true, rest) | None => None end
          else if Ascii.eqb c "f" then
            match expect "alse" r with Some rest => Some (JBool false, rest) | None => None end
          else if Ascii.eqb c "n" then
            match expect "ull" r with Some rest => Some (JNull, rest) | None => None end
          else
            match parse_nat (String c r) with
            | Some (k, rest) => Some (JNum k, rest)
            | None => None
            end
      end
  end
with parse_elements (fuel : nat) (acc : list json) (s : string)
  : option (json * string) :=
  match fuel with
  | O => None
  | S n =>
      match parse_value n s with
      | Some (v, rest) =>
          match skip_ws rest with
          | String "," rest' => parse_elements n (acc ++ [v]) rest'
          | String "]" rest' => Some (JArr (acc ++ [v]), rest')
          | _ => None
          end
      | None => None
      end
  end
with parse_members (fuel : nat) (acc : list (string * json)) (s : string)
  : option (json * string) :=
  match fuel with
  | O => None
  | S n =>
      match skip_ws s with
      | String c r =>
          if Ascii.eqb c quote then
            match parse_chars r with
            | Some (k, rest) =>
                match skip_ws rest with
                | String ":" rest' =>
                    match parse_value n rest' with
                    | Some (v, rest'') =>
                        match skip_ws rest'' with
                        | String "," r2 => parse_members n (set_prop k v acc) r2
                        | String "}" r2 => Some (JObj (set_prop k v acc), r2)
                        | _ => None
                        end
                    | None => None
                    end
                | _ => None
                end
            | None => None
            end
          else None
      | EmptyString => None
      end
  end.

Definition parse (text : string) : option json :=
  match parse_value (S (String.length text)) text with
  | Some (v, rest) =>
      match skip_ws rest with
      | EmptyString => Some v
      | _ => None
      end
  | None => None
  end.

(** The text of a string literal: [str "ab"] is the four characters
    quote, a, b, quote. *)
Definition str (s : string) : string :=
  String quote (s +:+ String quote EmptyString).

End JSON.


(** ** The event decoder

    The body of the read loop, the same text in
    [DriftAssistProvider.tsx] ([readStream]) and in
    [S3StreamingAnalysis.tsx] ([startAnalysis]):
    [decoder.decode(value)], [chunk.split('\n')], and for every line that
    starts with the prefix, [JSON.parse(line.slice(6))] under a [try]. *)

Module Stream.
Import JS.

(** [s.split('\n')] *)
Fixpoint split (s : string) : list string :=
  match s with
  | EmptyString => [EmptyString]
  | String c r =>
      if Ascii.eqb c JSON.newline then EmptyString :: split r
      else
        match split r with
        | l :: ls => String c l :: ls
        | [] => [String c EmptyString]
        end
  end.

(** [line.slice(n)] *)
Fixpoint slice (n : nat) (line : string) : string :=
  match n, line with
  | O, _ => line
  | S n', String _ r => slice n' r
  | S _, EmptyString => EmptyString
  end.

(** [line.startsWith('data: ')] *)
Definition startsWith_data (line : string) : bool :=
  String.prefix "data: " line.

(** The chunk ends where a line ends: it is empty or its last character is
    the line break. *)
Fixpoint line_aligned (chunk : string) : bool :=
  match chunk with
  | EmptyString => true
  | String c r =>
      match r with
      | EmptyString => Ascii.eqb c JSON.newline
      | String _ _ => line_aligned r
      end
  end.

Section Decoder.

(** [JSON.parse], with [None] where it throws. *)
Variable parse : string -> option json.

(** One turn of [for (const line of lines)]: the event handed to the update
    handler, if any.  A line that does not parse is dropped with a warning. *)
Definition decode_line (line : string) : option json :=
  if startsWith_data line then parse (slice 6 line) else None.

(** One turn of [while (true)]: the events of one chunk, in order. *)
Definition decode_chunk (chunk : string) : list json :=
  omap decode_line (split chunk).

(** The events the loop hands over while it reads the chunks one by one. *)
Definition decode_chunks (chunks : list string) : list json :=
  flat_map decode_chunk chunks.

(** The decoder of the design document: the whole stream is split on line
    breaks and every line with the prefix is parsed. *)
Definition decode_stream (chunks : list string) : list json :=
  omap decode_line (split (String.concat EmptyString chunks)).

End Decoder.

End Stream.

(** ** The responses of [fetch] and of [reader.read()] *)

Module Fetch.

Record Response := {
  status : Z;
  statusText : string;
  (** what [response.json()] resolves to; [None] when it rejects *)
  body_json : option JS.json;
  (** the reader [response.body?.getReader()] gives, named by a number;
      [None] when there is no body *)
  body_reader : option nat
}.

(** [response.ok] *)
Definition ok (r : Response) : bool :=
  (200 <=? status r) && (status r <=? 299).

Inductive Outcome :=
| Resolved (r : Response)
| Rejected (message : string).

Inductive Read :=
| Chunk (text : string)
| Done
| Failed (name message : string).

End Fetch.

(** ** The session store: [DriftAssistProvider.tsx] *)

Module Provider.
Import JS.

Record AnalysisData := {
  sessionId : string;
  selectedResources : list string;
  stateData : json;
  fileName : string;
  fileKey : string;
  source : string;
  bucketName : string;
  terraformAnalysis : value;
  configurationSummary : value
}.

Record ResourceResult := {
  status : value;
  detectionStatus : value;
  reportStatus : value;
  detectionResults : value;
  reportResults : value
}.

(** A session object.  A field is [None] when the object lacks it: the
    lifecycle calls build objects by spreading [prev[sessionId]], which
    may be [undefined]. *)
Record AnalysisSession := {
  id : option string;
  analysisData : option AnalysisData;
  analysisResults : option (gmap string json);
  resourceResults : option (gmap string ResourceResult);
  isAnalyzing : option bool;
  analysisComplete : option bool;
  hasStarted : option bool;
  error : value;
  timestamp : option Z
}.

(** An entry of [activeStreams.current].  The [AbortController] is made by
    the call that obtains the reader and is used only together with it, so
    the reader's number stands for both. *)
Record StreamHandle := { reader : nat }.

(** The state of the provider: the two [useState] cells, the [useRef] cell,
    and the readers on which [abort()] and [cancel()] have been called. *)
Record State := {
  sessions : gmap string AnalysisSession;
  currentSession : option AnalysisSession;
  activeStreams : gmap string StreamHandle;
  cancelled : gset nat
}.

Definition initial : State :=
  {| sessions := ∅; currentSession := None; activeStreams := ∅; cancelled := ∅ |}.

(** [{}] and [{...o}] for the three kinds of object. *)
Definition no_result : ResourceResult :=
  {| status := None; detectionStatus := None; reportStatus := None;
     detectionResults := None; reportResults := None |}.

Definition no_session : AnalysisSession :=
  {| id := None; analysisData := None; analysisResults := None;
     resourceResults := None; isAnalyzing := None; analysisComplete := None;
     hasStarted := None; error := None; timestamp := None |}.

Definition spread {A} (o : option (gmap string A)) : gmap string A :=
  default ∅ o.

Definition spread_result (o : option ResourceResult) : ResourceResult :=
  default no_result o.

Definition spread_session (o : option AnalysisSession) : AnalysisSession :=
  default no_session o.

(** [{...m, [k]: v}] on an object of JSON values: a key given [undefined]
    reads as an absent one. *)
Definition with_key (k : string) (v : value) (m : gmap string json)
  : gmap string json :=
  match v with
  | Some x => <[k := x]> m
  | None => delete k m
  end.

(** Assignments to one field of a session object. *)
Definition set_analysisResults (v : gmap string json) (s : AnalysisSession) :=
  {| id := id s; analysisData := analysisData s; analysisResults := Some v;
     resourceResults := resourceResults s; isAnalyzing := isAnalyzing s;
     analysisComplete := analysisComplete s; hasStarted := hasStarted s;
     error := error s; timestamp := timestamp s |}.

Definition set_resourceResults (v : gmap string ResourceResult)
  (s : AnalysisSession) :=
  {| id := id s; analysisData := analysisData s;
     analysisResults := analysisResults s; resourceResults := Some v;
     isAnalyzing := isAnalyzing s; analysisComplete := analysisComplete s;
     hasStarted := hasStarted s; error := error s; timestamp := timestamp s |}.

Definition set_isAnalyzing (b : bool) (s : AnalysisSession) :=
  {| id := id s; analysisData := analysisData s;
     analysisResults := analysisResults s;
     resourceResults := resourceResults s; isAnalyzing := Some b;
     analysisComplete := analysisComplete s; hasStarted := hasStarted s;
     error := error s; timestamp := timestamp s |}.

Definition set_analysisComplete (b : bool) (s : AnalysisSession) :=
  {| id := id s; analysisData := analysisData s;
     analysisResults := analysisResults s;
     resourceResults := resourceResults s; isAnalyzing := isAnalyzing s;
     analysisComplete := Some b; hasStarted := hasStarted s;
     error := error s; timestamp := timestamp s |}.

Definition set_error (e : value) (s : AnalysisSession) :=
  {| id := id s; analysisData := analysisData s;
     analysisResults := analysisResults s;
     resourceResults := resourceResults s; isAnalyzing := isAnalyzing s;
     analysisComplete := analysisComplete s; hasStarted := hasStarted s;
     error := e; timestamp := timestamp s |}.

(** Assignments to the cells of the state. *)
Definition set_sessions (m : gmap string AnalysisSession) (st : State) :=
  {| sessions := m; currentSession := currentSession st;
     activeStreams := activeStreams st; cancelled := cancelled st |}.

Definition set_currentSession (c : option AnalysisSession) (st : State) :=
  {| sessions := sessions st; currentSession := c;
     activeStreams := activeStreams st; cancelled := cancelled st |}.

Definition set_activeStreams (a : gmap string StreamHandle) (st : State) :=
  {| sessions := sessions st; currentSession := currentSession st;
     activeStreams := a; cancelled := cancelled st |}.

(** [generateSessionId], with the value [Date.now()] returns. *)
Definition generateSessionId (analysisData : AnalysisData) (now : Z) : string :=
  fileName analysisData +:+ "_" +:+ sessionId analysisData +:+ "_" +:+ pretty now.

(** The cases of [switch (data.type)]. *)
Inductive EventType :=
| session_initialized
| analysis_started
| resource_initialized
| resource_group_update
| detection_complete
| report_complete
| analysis_complete
| error_event
| unknown_event.

Definition event_type (type : value) : EventType :=
  if is_string type "session_initialized" then session_initialized
  else if is_string type "analysis_started" then analysis_started
  else if is_string type "resource_initialized" then resource_initialized
  else if is_string type "resource_group_update" then resource_group_update
  else if is_string type "detection_complete" then detection_complete
  else if is_string type "report_complete" then report_complete
  else if is_string type "analysis_complete" then analysis_complete
  else if is_string type "error" then error_event
  else unknown_event.

(** The entry [resource_initialized] stores. *)
Definition initialized_entry (data : json) : ResourceResult :=
  {| status := Some (JStr "initialized");
     detectionStatus :=
       or_else (member data "detectionStatus") (Some (JStr "pending"));
     reportStatus :=
       or_else (member data "reportStatus") (Some (JStr "pending"));
     detectionResults := None;
     reportResults := None |}.

(** The entry [resource_group_update] stores for one resource of the batch:
    the body of the [forEach] callback. *)
Definition hasDetectionResults (drift_result : value) : bool :=
  truthy drift_result
  && (truthy (member_opt drift_result "drifts")
      || bool_decide (is_Some (member_opt drift_result "has_drift"))).

Definition group_entry (resourceData : json) : result ResourceResult :=
  try! drift_result := get (Some resourceData) "drift_result" in
  let report := member resourceData "report" in
  let hasReport := truthy report in
  let isCompleted := is_string (member resourceData "status") "completed" in
  let detection :=
    if isCompleted || hasDetectionResults drift_result
    then "complete" else "pending" in
  let report_st :=
    if isCompleted || hasReport then "complete" else "pending" in
  Ok {| status := or_else (member resourceData "status") (Some (JStr "processing"));
        detectionStatus := Some (JStr detection);
        reportStatus := Some (JStr report_st);
        detectionResults := drift_result;
        reportResults := report |}.

(** [Object.entries(...).forEach(...)] over the batch, assigning into
    [updatedResourceResults]. *)
Fixpoint group_update (entries : list (string * json))
  (updated : gmap string ResourceResult)
  : result (gmap string ResourceResult) :=
  match entries with
  | [] => Ok updated
  | (resourceType, resourceData) :: rest =>
      try! entry := group_entry resourceData in
      group_update rest (<[resourceType := entry]> updated)
  end.

(** [data.data.resources] when [data.data && data.data.resources] holds. *)
Definition batch (data : json) : option json :=
  let d := member data "data" in
  if truthy d && truthy (member_opt d "resources")
  then member_opt d "resources" else None.

(** The [switch] of [handleStreamingUpdate]: the updated copy of the
    session, and whether the case removes the entry of [activeStreams]. *)
Definition update_session (data : json) (type : value)
  (session : AnalysisSession) : result (AnalysisSession * bool) :=
  match event_type type with
  | session_initialized =>
      Ok (set_analysisResults
            (with_key "session_dir" (member data "session_dir")
               (<["status" := JStr "session_initialized"]>
                  (spread (analysisResults session))))
            session, false)
  | analysis_started =>
      Ok (set_analysisResults
            (with_key "resources" (member data "resources")
               (<["status" := JStr "started"]>
                  (spread (analysisResults session))))
            session, false)
  | resource_initialized =>
      try! resource := ToPropertyKey (member data "resource") in
      Ok (set_resourceResults
            (<[resource := initialized_entry data]>
               (spread (resourceResults session)))
            session, false)
  | resource_group_update =>
      match batch data with
      | Some resources =>
          match analysisResults session with
          | Some results =>
              let order :=
                or_else (results !! "resources")
                        (Some (JArr (JStr <$> Object_keys resources))) in
              let session1 :=
                set_analysisResults (with_key "resources" order results)
                                    session in
              try! updated :=
                group_update (Object_entries resources)
                             (spread (resourceResults session)) in
              Ok (set_resourceResults updated session1, false)
          | None => TypeError
          end
      | None => Ok (session, false)
      end
  | detection_complete =>
      try! resource := ToPropertyKey (member data "resource") in
      match resourceResults session with
      | Some results =>
          let old := spread_result (results !! resource) in
          Ok (set_resourceResults
                (<[resource :=
                     {| status := status old;
                        detectionStatus := Some (JStr "complete");
                        reportStatus := reportStatus old;
                        detectionResults := member data "results";
                        reportResults := reportResults old |}]> results)
                session, false)
      | None => TypeError
      end
  | report_complete =>
      try! resource := ToPropertyKey (member data "resource") in
      match resourceResults session with
      | Some results =>
          let old := spread_result (results !! resource) in
          Ok (set_resourceResults
                (<[resource :=
                     {| status := status old;
                        detectionStatus := detectionStatus old;
                        reportStatus := Some (JStr "complete");
                        detectionResults := detectionResults old;
                        reportResults := member data "results" |}]> results)
                session, false)
      | None => TypeError
      end
  | analysis_complete =>
      Ok (set_isAnalyzing false (set_analysisComplete true session), true)
  | error_event =>
      Ok (set_isAnalyzing false (set_error (member data "error") session), true)
  | unknown_event => Ok (session, false)
  end.

(** [handleStreamingUpdate]: the function given to [setSessions], run on
    the state. *)
Definition handleStreamingUpdate (sessionId : string) (data : json)
  (prev : State) : result State :=
  match sessions prev !! sessionId with
  | None => Ok prev
  | Some session =>
      try! type := get (Some data) "type" in
      try! upd := update_session data type session in
      let '(updatedSession, cleanup) := upd in
      let streams :=
        if cleanup then delete sessionId (activeStreams prev)
        else activeStreams prev in
      Ok (set_activeStreams streams
            (set_sessions (<[sessionId := updatedSession]> (sessions prev)) prev))
  end.

(** The events of a stream applied in order, stopping at a [TypeError]. *)
Fixpoint apply_events (sessionId : string) (events : list json) (st : State)
  : result State :=
  match events with
  | [] => Ok st
  | data :: rest =>
      try! st' := handleStreamingUpdate sessionId data st in
      apply_events sessionId rest st'
  end.

(** *** The life cycle of a session *)

(** The session [startAnalysis] stores before it awaits the response; the
    two arguments are the two readings of [Date.now()]. *)
Definition newSession (analysisData : AnalysisData) (now1 now2 : Z)
  : AnalysisSession :=
  {| id := Some (generateSessionId analysisData now1);
     analysisData := Some analysisData;
     analysisResults := Some ∅;
     resourceResults := Some ∅;
     isAnalyzing := Some true;
     analysisComplete := Some false;
     hasStarted := Some true;
     error := Some JNull;
     timestamp := Some now2 |}.

(** [startAnalysis] up to [await fetch(...)]. *)
Definition startAnalysis_begin (analysisData : AnalysisData) (now1 now2 : Z)
  (st : State) : State :=
  let session := newSession analysisData now1 now2 in
  set_currentSession (Some session)
    (set_sessions
       (<[generateSessionId analysisData now1 := session]> (sessions st)) st).

(** The two [catch] blocks that record a failure:
    [{...prev[sessionId], error: message, isAnalyzing: false}]. *)
Definition fail_session (sessionId message : string) (st : State) : State :=
  set_sessions
    (<[sessionId :=
         set_isAnalyzing false
           (set_error (Some (JStr message))
              (spread_session (sessions st !! sessionId)))]> (sessions st))
    st.

(** The message of the [TypeError] thrown by [errorData.details] on a
    body that is [null]. *)
Definition null_details_message : string :=
  "Cannot read properties of null (reading 'details')".

(** The message of the [TypeError] thrown by [new Error(errorMessage)] for
    an [errorMessage] that has no primitive value. *)
Definition no_primitive_message : string :=
  "Cannot convert object to primitive value".

(** The message of the error [startAnalysis] throws for a response that is
    not [ok]: the text of [errorMessage], or the message of the [TypeError]
    thrown on the way, which the same [catch] receives. *)
Definition errorMessage (r : Fetch.Response) : string :=
  let errorData :=
    match Fetch.body_json r with
    | Some body => body
    | None =>
        JObj [("error",
               JStr ("HTTP " +:+ pretty (Fetch.status r) +:+ ": "
                     +:+ Fetch.statusText r))]
    end in
  match get (Some errorData) "details" with
  | TypeError => null_details_message
  | Ok details =>
      match ToPropertyKey
              (or_else (or_else details (member errorData "error"))
                 (Some (JStr ("Analysis failed with status "
                              +:+ pretty (Fetch.status r))))) with
      | Ok message => message
      | TypeError => no_primitive_message
      end
  end.

(** [startAnalysis] from the moment [fetch] settles up to the first
    [reader.read()].  The second component tells whether the call went on
    to read the stream. *)
Definition startAnalysis_response (sessionId : string) (o : Fetch.Outcome)
  (st : State) : State * bool :=
  match o with
  | Fetch.Rejected message => (fail_session sessionId message st, false)
  | Fetch.Resolved r =>
      if Fetch.ok r then
        match Fetch.body_reader r with
        | Some rd =>
            (set_activeStreams
               (<[sessionId := {| reader := rd |}]> (activeStreams st)) st,
             true)
        | None => (fail_session sessionId "Failed to get response reader" st, false)
        end
      else (fail_session sessionId (errorMessage r) st, false)
  end.

(** [startAnalysis] when nothing else runs while it awaits the response. *)
Definition startAnalysis (analysisData : AnalysisData) (now1 now2 : Z)
  (o : Fetch.Outcome) (st : State) : State * bool :=
  startAnalysis_response (generateSessionId analysisData now1) o
    (startAnalysis_begin analysisData now1 now2 st).

(** [finally]: the entry of [activeStreams] under the id is dropped. *)
Definition release (sessionId : string) (st : State) : State :=
  set_activeStreams (delete sessionId (activeStreams st)) st.

Section ReadStream.

Variable parse : string -> option json.

(** One turn of the loop of [readStream], given what [reader.read()]
    settled to.  The second component tells whether the loop goes on. *)
Definition readStream_step (sessionId : string) (r : Fetch.Read) (st : State)
  : result (State * bool) :=
  match r with
  | Fetch.Chunk text =>
      try! st' := apply_events sessionId (Stream.decode_chunk parse text) st in
      Ok (st', true)
  | Fetch.Done => Ok (release sessionId st, false)
  | Fetch.Failed name message =>
      if String.eqb name "AbortError" then Ok (release sessionId st, false)
      else Ok (release sessionId (fail_session sessionId message st), false)
  end.

(** [readStream] over the chunks a stream delivers before it ends. *)
Definition readStream (sessionId : string) (chunks : list string) (st : State)
  : result State :=
  try! st' := apply_events sessionId (Stream.decode_chunks parse chunks) st in
  Ok (release sessionId st').

(** The loop of [readStream] over what the successive calls of
    [reader.read()] settle to: it goes on after a chunk and ends at the
    first [done] or rejection, whatever the reader would deliver after that.
    When the list is used up the loop is waiting for the next read. *)
Fixpoint readStream_loop (sessionId : string) (reads : list Fetch.Read)
  (st : State) : result State :=
  match reads with
  | [] => Ok st
  | r :: rest =>
      try! step := readStream_step sessionId r st in
      if step.2 then readStream_loop sessionId rest step.1 else Ok step.1
  end.

End ReadStream.

(** [stopAnalysis] *)
Definition stopAnalysis (sessionId : string) (st : State) : State :=
  {| sessions :=
       <[sessionId :=
           set_isAnalyzing false (spread_session (sessions st !! sessionId))]>
         (sessions st);
     currentSession := currentSession st;
     activeStreams := delete sessionId (activeStreams st);
     cancelled :=
       match activeStreams st !! sessionId with
       | Some h => {[reader h]} ∪ cancelled st
       | None => cancelled st
       end |}.

(** [clearSession] *)
Definition clearSession (sessionId : string) (st : State) : State :=
  let st' := stopAnalysis sessionId st in
  {| sessions := delete sessionId (sessions st');
     currentSession :=
       match currentSession st' with
       | Some c =>
           if bool_decide (id c = Some sessionId) then None else Some c
       | None => None
       end;
     activeStreams := activeStreams st';
     cancelled := cancelled st' |}.

(** [resumeAnalysis] *)
Definition resumeAnalysis (sessionId : string) (st : State)
  : State * option AnalysisSession :=
  match sessions st !! sessionId with
  | Some session => (set_currentSession (Some session) st, Some session)
  | None => (st, None)
  end.

(** What a session holds for a resource: [sessions[sessionId].resourceResults[resource]]. *)
Definition resource_of (sessionId resource : string) (st : State)
  : option ResourceResult :=
  session ← sessions st !! sessionId;
  results ← resourceResults session;
  results !! resource.

End Provider.

(** ** The analysis component: [S3StreamingAnalysis.tsx] *)

Module Component.
Import JS.

(** The component declares [AnalysisData] and [ResourceResult] with the
    fields the provider gives them. *)
Abbreviation AnalysisData := Provider.AnalysisData.
Abbreviation ResourceResult := Provider.ResourceResult.

(** The [useState] cells the analysis writes, and [analysisStartedRef]. *)
Record State := {
  analysisResults : gmap string json;
  resourceResults : gmap string ResourceResult;
  isAnalyzing : bool;
  error : value;
  analysisComplete : bool;
  hasStarted : bool;
  analysisStartedRef : bool
}.

Definition initial : State :=
  {| analysisResults := ∅; resourceResults := ∅; isAnalyzing := false;
     error := Some JNull; analysisComplete := false; hasStarted := false;
     analysisStartedRef := false |}.

(** [startAnalysis] up to [await fetch(...)]; the second component tells
    whether the request is sent. *)
Definition startAnalysis_begin (analysisData : option AnalysisData) (st : State)
  : State * bool :=
  if negb (bool_decide (is_Some analysisData)) || isAnalyzing st || hasStarted st
     || analysisStartedRef st
  then (st, false)
  else
    ({| analysisResults := ∅; resourceResults := ∅; isAnalyzing := true;
        error := Some JNull; analysisComplete := false; hasStarted := true;
        analysisStartedRef := true |}, true).

(** [setError(message)] followed by [finally]: the early [return]s of the
    three known status codes. *)
Definition refuse (message : string) (st : State) : State :=
  {| analysisResults := analysisResults st;
     resourceResults := resourceResults st;
     isAnalyzing := false;
     error := Some (JStr message);
     analysisComplete := analysisComplete st;
     hasStarted := hasStarted st;
     analysisStartedRef := analysisStartedRef st |}.

(** [catch] followed by [finally]. *)
Definition fail (message : string) (st : State) : State :=
  {| analysisResults := analysisResults st;
     resourceResults := resourceResults st;
     isAnalyzing := false;
     error := Some (JStr message);
     analysisComplete := analysisComplete st;
     hasStarted := false;
     analysisStartedRef := false |}.

Definition in_progress_message : string :=
  "Analysis already in progress for this file. Please wait for it to complete.".
Definition authentication_message : string :=
  "Authentication failed. Your session may have expired. Please reconnect to your cloud environment.".
Definition forbidden_message : string :=
  "Access forbidden. Please check your permissions and try again.".

(** [startAnalysis] from the moment [fetch] settles up to the first
    [reader.read()]; the second component tells whether the call went on to
    read the stream.  The message for the other status codes is computed by
    the statements the provider has too. *)
Definition startAnalysis_response (o : Fetch.Outcome) (st : State)
  : State * bool :=
  match o with
  | Fetch.Rejected message => (fail message st, false)
  | Fetch.Resolved r =>
      if Fetch.ok r then
        match Fetch.body_reader r with
        | Some _ => (st, true)
        | None => (fail "Failed to get response reader" st, false)
        end
      else if Fetch.status r =? 423 then (refuse in_progress_message st, false)
      else if Fetch.status r =? 401 then (refuse authentication_message st, false)
      else if Fetch.status r =? 403 then (refuse forbidden_message st, false)
      else (fail (Provider.errorMessage r) st, false)
  end.

(** [getDriftCount]; the result is whatever [drift_count] holds when the
    field is there. *)
Definition getDriftCount (results : option ResourceResult) : json :=
  let detectionData :=
    match results with
    | Some r => Provider.detectionResults r
    | None => None
    end in
  if negb (truthy detectionData) then JNum 0
  else
    match member_opt detectionData "drift_count" with
    | Some count => count
    | None =>
        match member_opt detectionData "drifts" with
        | Some (JArr drifts) => JNum (Z.of_nat (length drifts))
        | _ => JNum 0
        end
    end.

(** The count the design document describes: the entries of [drifts] when
    the list is there, else [drift_count], else zero. *)
Definition spec_drift_count (results : option ResourceResult) : json :=
  let detectionData :=
    match results with
    | Some r => Provider.detectionResults r
    | None => None
    end in
  match member_opt detectionData "drifts" with
  | Some (JArr drifts) => JNum (Z.of_nat (length drifts))
  | _ =>
      match member_opt detectionData "drift_count" with
      | Some count => count
      | None => JNum 0
      end
  end.

End Component.

(** ** Which events revert the entry of a resource *)

Module Entry.
Import JS Provider.

(** [data.resource], as a key, is the resource. *)
Definition names (resource : string) (data : json) : bool :=
  match ToPropertyKey (member data "resource") with
  | Ok key => String.eqb key resource
  | TypeError => false
  end.

(** The entry the event stores under [resource] computed from the event
    alone, if it stores one: the fresh entry of a [resource_initialized]
    that names the resource, or the entry a [resource_group_update] computes
    from the record its batch has for the resource. *)
Definition stored_by (resource : string) (data : json)
  : option ResourceResult :=
  match event_type (member data "type") with
  | resource_initialized =>
      if names resource data then Some (initialized_entry data) else None
  | resource_group_update =>
      match batch data with
      | Some resources =>
          match group_update (Object_entries resources) ∅ with
          | Ok updated => updated !! resource
          | TypeError => None
          end
      | None => None
      end
  | _ => None
  end.

(** A result is there: the field is neither [undefined] nor [null]. *)
Definition present (v : value) : bool :=
  match v with
  | None | Some JNull => false
  | Some _ => true
  end.

(** The event stores, under [resource], an entry computed from the event
    alone whose [detectionStatus] is not ['complete']: a
    [resource_initialized] that names the resource and does not itself
    carry [detectionStatus: 'complete'], or a [resource_group_update] whose
    record for the resource is neither completed nor has a detection
    result. *)
Definition reverts_detection (resource : string) (data : json) : bool :=
  match stored_by resource data with
  | Some entry => negb (is_string (detectionStatus entry) "complete")
  | None => false
  end.

(** The same for [reportStatus]: the [resource_initialized] does not carry
    [reportStatus: 'complete'], the record of the batch is neither completed
    nor has a report. *)
Definition reverts_report (resource : string) (data : json) : bool :=
  match stored_by resource data with
  | Some entry => negb (is_string (reportStatus entry) "complete")
  | None => false
  end.

(** The event leaves the resource without detection result: a
    [resource_initialized] that names the resource, a
    [resource_group_update] whose record for the resource has no
    [drift_result], or a [detection_complete] that names the resource and
    has no [results]. *)
Definition clears_detection (resource : string) (data : json) : bool :=
  match stored_by resource data with
  | Some entry => negb (present (detectionResults entry))
  | None =>
      match event_type (member data "type") with
      | detection_complete =>
          names resource data && negb (present (member data "results"))
      | _ => false
      end
  end.

(** The event leaves the resource without report: a [resource_initialized]
    that names the resource, a [resource_group_update] whose record for the
    resource has no [report], or a [report_complete] that names the resource
    and has no [results]. *)
Definition clears_report (resource : string) (data : json) : bool :=
  match stored_by resource data with
  | Some entry => negb (present (reportResults entry))
  | None =>
      match event_type (member data "type") with
      | report_complete =>
          names resource data && negb (present (member data "results"))
      | _ => false
      end
  end.

Definition complete (v : value) : Prop := v = Some (JStr "complete").


End Entry.

(** ** A session to run the definitions on *)

Module Scenario.
Import JS.

Definition analysisData : Provider.AnalysisData :=
  {| Provider.sessionId := "s1";
     Provider.selectedResources := ["ec2"; "s3"];
     Provider.stateData := JObj [];
     Provider.fileName := "prod.tfstate";
     Provider.fileKey := "states/prod.tfstate";
     Provider.source := "s3";
     Provider.bucketName := "infra";
     Provider.terraformAnalysis := None;
     Provider.configurationSummary := None |}.

Definition now : Z := 1700000000000.

Definition sid : string := Provider.generateSessionId analysisData now.

Definition response_ok (rd : nat) : Fetch.Response :=
  {| Fetch.status := 200; Fetch.statusText := "OK";
     Fetch.body_json := None; Fetch.body_reader := Some rd |}.

(** The store after [startAnalysis] got its stream. *)
Definition streaming : Provider.State :=
  (Provider.startAnalysis analysisData now now
     (Fetch.Resolved (response_ok 1)) Provider.initial).1.

(** Events, as [JSON.parse] returns them. *)
Definition ev_detection_complete (resource : string) (results : json) : json :=
  JObj [("type", JStr "detection_complete"); ("resource", JStr resource);
        ("results", results)].

Definition ev_resource_initialized (resource : string) : json :=
  JObj [("type", JStr "resource_initialized"); ("resource", JStr resource)].

Definition ev_group_update (resources : list (string * json)) : json :=
  JObj [("type", JStr "resource_group_update");
        ("data", JObj [("resources", JObj resources)])].

Definition ev_error (message : string) : json :=
  JObj [("type", JStr "error"); ("error", JStr message)].

Definition two_drifts : json :=
  JObj [("drifts", JArr [JObj [("type", JStr "missing_tag")];
                         JObj [("type", JStr "changed_ami")]])].

(** The store after the stream reported [ec2] complete with two drifts. *)
Definition ec2_complete : Provider.State :=
  match Provider.handleStreamingUpdate sid
          (ev_detection_complete "ec2" two_drifts) streaming with
  | Ok st => st
  | TypeError => streaming
  end.

(** The session that store holds. *)
Definition ec2_entry : Provider.ResourceResult :=
  {| Provider.status := None;
     Provider.detectionStatus := Some (JStr "complete");
     Provider.reportStatus := None;
     Provider.detectionResults := Some two_drifts;
     Provider.reportResults := None |}.

Definition ec2_session : Provider.AnalysisSession :=
  Provider.set_resourceResults {[ "ec2" := ec2_entry ]}
    (Provider.newSession analysisData now now).

(** Events that follow: another resource is announced, completes and is
    reported in a batch, and the analysis ends. *)
Definition later_events : list json :=
  [ ev_resource_initialized "s3";
    ev_detection_complete "s3" (JObj [("drifts", JArr [])]);
    ev_group_update [("s3", JObj [("status", JStr "completed")])];
    JObj [("type", JStr "analysis_complete")] ].

(** The line of the stream that ends the analysis, and two ways the
    network may cut it. *)
Definition line_analysis_complete : string :=
  "data: {" +:+ JSON.str "type" +:+ ":" +:+ JSON.str "analysis_complete"
  +:+ "}" +:+ String JSON.newline EmptyString.

Definition cut_in_prefix : list string :=
  [ "da";
    "ta: {" +:+ JSON.str "type" +:+ ":" +:+ JSON.str "analysis_complete"
    +:+ "}" +:+ String JSON.newline EmptyString ].

Definition cut_in_record : list string :=
  [ "data: {" +:+ JSON.str "type" +:+ ":";
    JSON.str "analysis_complete" +:+ "}" +:+ String JSON.newline EmptyString ].

(** A stream in two chunks: the session is initialized, the analysis is
    started for [ec2] and [s3], a batch reports [ec2] completed with two
    drifts and [s3] pending, and the analysis completes. *)
Definition field (k v : string) : string := JSON.str k +:+ ":" +:+ v.

Definition data_line (record : string) : string :=
  "data: " +:+ record +:+ String JSON.newline EmptyString.

Definition stream_A : list string :=
  [ data_line ("{" +:+ field "type" (JSON.str "session_initialized") +:+ ","
               +:+ field "session_dir" (JSON.str "/tmp/s1") +:+ "}")
    +:+ data_line ("{" +:+ field "type" (JSON.str "analysis_started") +:+ ","
                   +:+ field "resources"
                         ("[" +:+ JSON.str "ec2" +:+ "," +:+ JSON.str "s3" +:+ "]")
                   +:+ "}");
    data_line
      ("{" +:+ field "type" (JSON.str "resource_group_update") +:+ ","
       +:+ field "data"
             ("{" +:+ field "resources"
                ("{" +:+ field "ec2"
                   ("{" +:+ field "status" (JSON.str "completed") +:+ ","
                    +:+ field "drift_result"
                          ("{" +:+ field "drifts" "[{}, {}]" +:+ "}") +:+ "}")
                 +:+ ","
                 +:+ field "s3" ("{" +:+ field "status" (JSON.str "pending") +:+ "}")
                 +:+ "}") +:+ "}") +:+ "}")
    +:+ data_line ("{" +:+ field "type" (JSON.str "analysis_complete") +:+ "}") ].

(** A detection result whose [drift_count] is not the number of its
    [drifts]. *)
Definition count_and_list : json :=
  JObj [("drift_count", JNum 5);
        ("drifts", JArr [JObj [("type", JStr "missing_tag")]])].

(** A response that is not [ok]: the state file is locked. *)
Definition response_locked : Fetch.Response :=
  {| Fetch.status := 423; Fetch.statusText := "Locked";
     Fetch.body_json := Some (JObj [("error", JStr "State file is locked")]);
     Fetch.body_reader := None |}.

End Scenario.

(** ** The other calls of the provider's context *)

Module Lifecycle.
Import JS Provider.



(** [{...base, ...results}] for a [Partial<AnalysisState>]: a key of
    [results] takes its value, also when that is [undefined]. *)
Definition assign (results : gmap string value) (base : gmap string json)
  : gmap string json :=
  merge (fun r b => match r with Some v => v | None => b end) results base.

(** [updateAnalysisResults] *)
Definition updateAnalysisResults (sessionId : string)
  (results : gmap string value) (st : State) : State :=
  let session := sessions st !! sessionId in
  set_sessions
    (<[sessionId :=
         set_analysisResults
           (assign results (spread (session ≫= analysisResults)))
           (spread_session session)]> (sessions st))
    st.

(** A [Partial<ResourceResult>]: a field is [None] when the object has no
    such key. *)
Module Partial.
Record ResourceResult := {
  status : option value;
  detectionStatus : option value;
  reportStatus : option value;
  detectionResults : option value;
  reportResults : option value
}.
End Partial.

(** [{...old, ...results}] *)
Definition assign_result (results : Partial.ResourceResult) (old : ResourceResult)
  : ResourceResult :=
  {| status := default (status old) (Partial.status results);
     detectionStatus :=
       default (detectionStatus old) (Partial.detectionStatus results);
     reportStatus := default (reportStatus old) (Partial.reportStatus results);
     detectionResults :=
       default (detectionResults old) (Partial.detectionResults results);
     reportResults :=
       default (reportResults old) (Partial.reportResults results) |}.

(** [updateResourceResults].  For a session that is not stored the optional
    chain [prev[sessionId]?.resourceResults[resourceId]] is [undefined];
    for a stored session without [resourceResults] it throws. *)
Definition updateResourceResults (sessionId resourceId : string)
  (results : Partial.ResourceResult) (st : State) : result State :=
  match sessions st !! sessionId with
  | None =>
      Ok (set_sessions
            (<[sessionId :=
                 set_resourceResults
                   {[ resourceId := assign_result results no_result ]}
                   no_session]> (sessions st))
            st)
  | Some session =>
      match resourceResults session with
      | Some entries =>
          Ok (set_sessions
                (<[sessionId :=
                     set_resourceResults
                       (<[resourceId :=
                            assign_result results
                              (spread_result (entries !! resourceId))]> entries)
                       session]> (sessions st))
                st)
      | None => TypeError
      end
  end.

(** [clearAllSessions]: [stopAnalysis] for every key of [activeStreams],
    then both cells are reset. *)
Definition clearAllSessions (st : State) : State :=
  let stopped :=
    map_fold (fun sessionId _ acc => stopAnalysis sessionId acc) st
             (activeStreams st) in
  {| sessions := ∅; currentSession := None;
     activeStreams := activeStreams stopped; cancelled := cancelled stopped |}.

(** The two objects [startAnalysis] gives a session are there. *)
Definition well_formed (session : AnalysisSession) : Prop :=
  is_Some (analysisResults session) /\ is_Some (resourceResults session).

(** The value is [null]. *)
Definition is_null (v : json) : bool :=
  match v with
  | JNull => true
  | _ => false
  end.

(** The event is a [resource_group_update] whose batch has a record that
    is [null]. *)
Definition has_null_record (data : json) : bool :=
  match event_type (member data "type") with
  | resource_group_update =>
      match batch data with
      | Some resources => existsb is_null (Object_entries resources).*2
      | None => false
      end
  | _ => false
  end.

(** The event is one of the three that store under the key
    [data.resource], and its [resource] has no primitive value: an object
    with an own [toString], or an array that holds one. *)
Definition has_unconvertible_resource (data : json) : bool :=
  match event_type (member data "type") with
  | resource_initialized | detection_complete | report_complete =>
      match ToPropertyKey (member data "resource") with
      | Ok _ => false
      | TypeError => true
      end
  | _ => false
  end.

(** The event ends the analysis: [analysis_complete] or [error]. *)
Definition terminal (data : json) : bool :=
  match event_type (member data "type") with
  | analysis_complete | error_event => true
  | _ => false
  end.

End Lifecycle.

(** ** The update handler and the views of the component *)

Module Streaming.
Import JS Provider.

Definition set_analysisResults (v : gmap string json) (st : Component.State)
  : Component.State :=
  {| Component.analysisResults := v;
     Component.resourceResults := Component.resourceResults st;
     Component.isAnalyzing := Component.isAnalyzing st;
     Component.error := Component.error st;
     Component.analysisComplete := Component.analysisComplete st;
     Component.hasStarted := Component.hasStarted st;
     Component.analysisStartedRef := Component.analysisStartedRef st |}.

Definition set_resourceResults (v : gmap string ResourceResult)
  (st : Component.State) : Component.State :=
  {| Component.analysisResults := Component.analysisResults st;
     Component.resourceResults := v;
     Component.isAnalyzing := Component.isAnalyzing st;
     Component.error := Component.error st;
     Component.analysisComplete := Component.analysisComplete st;
     Component.hasStarted := Component.hasStarted st;
     Component.analysisStartedRef := Component.analysisStartedRef st |}.

Definition set_analysisComplete (b : bool) (st : Component.State)
  : Component.State :=
  {| Component.analysisResults := Component.analysisResults st;
     Component.resourceResults := Component.resourceResults st;
     Component.isAnalyzing := Component.isAnalyzing st;
     Component.error := Component.error st;
     Component.analysisComplete := b;
     Component.hasStarted := Component.hasStarted st;
     Component.analysisStartedRef := Component.analysisStartedRef st |}.

Definition set_error (e : value) (st : Component.State) : Component.State :=
  {| Component.analysisResults := Component.analysisResults st;
     Component.resourceResults := Component.resourceResults st;
     Component.isAnalyzing := Component.isAnalyzing st;
     Component.error := e;
     Component.analysisComplete := Component.analysisComplete st;
     Component.hasStarted := Component.hasStarted st;
     Component.analysisStartedRef := Component.analysisStartedRef st |}.

(** The state updates a call of the component's [handleStreamingUpdate]
    queues, run on the state; [TypeError] when one of them throws. *)
Definition updates (data : json) (type : value) (st : Component.State)
  : result Component.State :=
  let results := Component.analysisResults st in
  let entries := Component.resourceResults st in
  match event_type type with
  | session_initialized =>
      Ok (set_analysisResults
            (with_key "session_dir" (member data "session_dir")
               (<["status" := JStr "session_initialized"]> results)) st)
  | analysis_started =>
      Ok (set_analysisResults
            (with_key "resources" (member data "resources")
               (<["status" := JStr "started"]> results)) st)
  | resource_initialized =>
      try! resource := ToPropertyKey (member data "resource") in
      Ok (set_resourceResults (<[resource := initialized_entry data]> entries) st)
  | resource_group_update =>
      match batch data with
      | Some resources =>
          let order :=
            or_else (results !! "resources")
                    (Some (JArr (JStr <$> Object_keys resources))) in
          try! updated := group_update (Object_entries resources) entries in
          Ok (set_resourceResults updated
                (set_analysisResults (with_key "resources" order results) st))
      | None => Ok st
      end
  | detection_complete =>
      try! resource := ToPropertyKey (member data "resource") in
      let old := spread_result (entries !! resource) in
      Ok (set_resourceResults
            (<[resource :=
                 {| status := status old;
                    detectionStatus := Some (JStr "complete");
                    reportStatus := reportStatus old;
                    detectionResults := member data "results";
                    reportResults := reportResults old |}]> entries) st)
  | report_complete =>
      try! resource := ToPropertyKey (member data "resource") in
      let old := spread_result (entries !! resource) in
      Ok (set_resourceResults
            (<[resource :=
                 {| status := status old;
                    detectionStatus := detectionStatus old;
                    reportStatus := Some (JStr "complete");
                    detectionResults := detectionResults old;
                    reportResults := member data "results" |}]> entries) st)
  | analysis_complete => Ok (set_analysisComplete true st)
  | error_event => Ok (set_error (member data "error") st)
  | unknown_event => Ok st
  end.

(** The component's [handleStreamingUpdate].  The outer result is the call
    itself, which throws when [data.type] does; the inner one is the state
    after the queued updates. *)
Definition handleStreamingUpdate (data : json) (st : Component.State)
  : result (result Component.State) :=
  try! type := get (Some data) "type" in
  Ok (updates data type st).

(** One line of the stream that parsed: the call of the handler is under
    the [try] of [JSON.parse], so what it throws is caught there and the
    event is dropped. *)
Definition process_event (data : json) (st : Component.State)
  : result Component.State :=
  match handleStreamingUpdate data st with
  | Ok after => after
  | TypeError => Ok st
  end.

(** A session of the provider and a state of the component hold the same
    results. *)
Definition same_results (session : AnalysisSession) (st : Component.State)
  : Prop :=
  analysisResults session = Some (Component.analysisResults st)
  /\ resourceResults session = Some (Component.resourceResults st)
  /\ error session = Component.error st
  /\ analysisComplete session = Some (Component.analysisComplete st).

(** The two handlers went the same way. *)
Definition same_outcome (p : result (AnalysisSession * bool))
  (c : result Component.State) : Prop :=
  match p, c with
  | Ok (session, _), Ok st => same_results session st
  | TypeError, TypeError => True
  | _, _ => False
  end.

(** The condition of the effect that starts the analysis on mount. *)
Definition effect_starts (analysisData : option Component.AnalysisData)
  (st : Component.State) : bool :=
  bool_decide (is_Some analysisData)
  && negb (Component.hasStarted st) && negb (Component.isAnalyzing st).

(** [handleResourceToggle] on the set of expanded resources. *)
Definition handleResourceToggle (resourceId : string) (prev : gset string)
  : gset string :=
  if decide (resourceId ∈ prev) then prev ∖ {[resourceId]}
  else prev ∪ {[resourceId]}.

(** The drifts [renderComprehensiveReport] lists; [None] where it renders
    nothing. *)
Definition report_drifts (detectionData : value) : option (list json) :=
  if negb (truthy detectionData) then None
  else
    match member_opt detectionData "drifts", detectionData with
    | Some (JArr drifts), _ => Some drifts
    | _, Some (JArr elems) => Some elems
    | _, _ =>
        match member_opt detectionData "differences" with
        | Some (JArr differences) => Some differences
        | _ => Some []
        end
    end.

End Streaming.

(** ** More states to run the definitions on *)

Module Cases.
Import JS.

Definition ev_analysis_started : json :=
  JObj [("type", JStr "analysis_started");
        ("resources", JArr [JStr "ec2"; JStr "s3"])].

Definition ev_report_complete (resource : string) (results : json) : json :=
  JObj [("type", JStr "report_complete"); ("resource", JStr resource);
        ("results", results)].

(** The store of [Scenario.ec2_complete] after [analysis_started]. *)
Definition started_session : Provider.AnalysisSession :=
  Provider.set_analysisResults
    {[ "status" := JStr "started";
       "resources" := JArr [JStr "ec2"; JStr "s3"] ]}
    Scenario.ec2_session.

Definition started : Provider.State :=
  Provider.set_sessions
    (<[Scenario.sid := started_session]>
       (Provider.sessions Scenario.ec2_complete))
    Scenario.ec2_complete.

(** Events that follow [Scenario.ec2_complete] and speak of [ec2] again: a
    batch that carries it as completed with its two drifts, and a second
    [detection_complete] with a result of its own. *)
Definition ec2_later_events : list json :=
  [ Scenario.ev_resource_initialized "s3";
    Scenario.ev_group_update
      [("ec2", JObj [("status", JStr "completed");
                     ("drift_result", Scenario.two_drifts)]);
       ("s3", JObj [("status", JStr "pending")])];
    Scenario.ev_detection_complete "ec2" (JObj [("drifts", JArr [])]);
    JObj [("type", JStr "analysis_complete")] ].

(** A [detection_complete] whose [resource] is an object with a
    [toString] entry: it has no primitive value. *)
Definition ev_unconvertible : json :=
  JObj [("type", JStr "detection_complete");
        ("resource", JObj [("toString", JNum 1)]);
        ("results", Scenario.two_drifts)].

(** A second session next to the first, with its own reader. *)
Definition other_data : Provider.AnalysisData :=
  {| Provider.sessionId := "s2";
     Provider.selectedResources := ["iam"];
     Provider.stateData := JObj [];
     Provider.fileName := "stage.tfstate";
     Provider.fileKey := "states/stage.tfstate";
     Provider.source := "s3";
     Provider.bucketName := "infra";
     Provider.terraformAnalysis := None;
     Provider.configurationSummary := None |}.

Definition other_sid : string :=
  Provider.generateSessionId other_data (Scenario.now + 1).

Definition two_sessions : Provider.State :=
  (Provider.startAnalysis other_data (Scenario.now + 1) (Scenario.now + 1)
     (Fetch.Resolved (Scenario.response_ok 2)) Scenario.ec2_complete).1.

(** Responses that are not [ok]. *)
Definition response_plain : Fetch.Response :=
  {| Fetch.status := 502; Fetch.statusText := "Bad Gateway";
     Fetch.body_json := None; Fetch.body_reader := None |}.

Definition response_empty_object : Fetch.Response :=
  {| Fetch.status := 500; Fetch.statusText := "Internal Server Error";
     Fetch.body_json := Some (JObj []); Fetch.body_reader := None |}.

End Cases.

(** ** Lines *)

Module Lines.

(** The text has no line break. *)
Fixpoint one_line (s : string) : bool :=
  match s with
  | EmptyString => true
  | String c r => negb (Ascii.eqb c JSON.newline) && one_line r
  end.

(** [before], then the line [data: payload], then [after]. *)
Definition around (before payload after : string) : string :=
  before +:+ ("data: " +:+ payload +:+ String JSON.newline EmptyString) +:+ after.

End Lines.

(** ** A component state *)

Module ComponentCases.
Import JS.

(** The component when [ec2] is complete with two drifts: the results
    [Scenario.ec2_session] holds. *)
Definition ec2_complete : Component.State :=
  {| Component.analysisResults := ∅;
     Component.resourceResults := {[ "ec2" := Scenario.ec2_entry ]};
     Component.isAnalyzing := true;
     Component.error := Some JNull;
     Component.analysisComplete := false;
     Component.hasStarted := true;
     Component.analysisStartedRef := true |}.

(** A detection result that is a list of drifts itself. *)
Definition bare_list : Provider.ResourceResult :=
  {| Provider.status := Some (JStr "completed");
     Provider.detectionStatus := Some (JStr "complete");
     Provider.reportStatus := Some (JStr "complete");
     Provider.detectionResults :=
       Some (JArr [JObj [("type", JStr "missing")];
                   JObj [("type", JStr "orphaned")]]);
     Provider.reportResults := None |}.

End ComponentCases.
(** ** The parser on two texts *)

Example parse_object :
  JSON.parse ("{" +:+ JSON.str "type" +:+ ": " +:+ JSON.str "x" +:+ ", "
              +:+ JSON.str "n" +:+ ":[1,-2,null,true]}")
  = Some (JS.JObj [("type", JS.JStr "x");
                   ("n", JS.JArr [JS.JNum 1; JS.JNum (-2); JS.JNull; JS.JBool true])]).
Proof. vm_compute. reflexivity. Qed.

Example parse_truncated :
  JSON.parse ("{" +:+ JSON.str "type" +:+ ": " +:+ JSON.str "x") = None.
Proof. vm_compute. reflexivity. Qed.

(** ** Values as property keys *)

Example ToPropertyKey_of_primitives :
  JS.ToPropertyKey (Some (JS.JStr "ec2")) = JS.Ok "ec2"
  /\ JS.ToPropertyKey (Some (JS.JNum (-7))) = JS.Ok "-7"
  /\ JS.ToPropertyKey (Some (JS.JBool true)) = JS.Ok "true"
  /\ JS.ToPropertyKey (Some JS.JNull) = JS.Ok "null"
  /\ JS.ToPropertyKey None = JS.Ok "undefined".
Proof. repeat split; vm_compute; reflexivity. Qed.

Example ToPropertyKey_of_objects :
  JS.ToPropertyKey (Some (JS.JObj [("name", JS.JStr "ec2")]))
  = JS.Ok "[object Object]"
  /\ JS.ToPropertyKey
       (Some (JS.JArr [JS.JNum 1; JS.JNull; JS.JArr [JS.JStr "a"; JS.JStr "b"]]))
     = JS.Ok "1,,a,b"
  /\ JS.ToPropertyKey (Some (JS.JObj [("toString", JS.JNum 1)])) = JS.TypeError
  /\ JS.ToPropertyKey
       (Some (JS.JArr [JS.JStr "a"; JS.JObj [("toString", JS.JNull)]]))
     = JS.TypeError
  /\ JS.ToPropertyKey (Some (JS.JObj [("valueOf", JS.JNum 1)]))
     = JS.Ok "[object Object]".
Proof. repeat split; vm_compute; reflexivity. Qed.

(** The message of a failed request whose [details] is no text. *)
Example errorMessage_of_unconvertible_details :
  Provider.errorMessage
    {| Fetch.status := 500; Fetch.statusText := "Internal Server Error";
       Fetch.body_json :=
         Some (JS.JObj [("details", JS.JObj [("toString", JS.JStr "x")])]);
       Fetch.body_reader := None |}
  = "Cannot convert object to primitive value"
  /\ Provider.errorMessage
       {| Fetch.status := 500; Fetch.statusText := "Internal Server Error";
          Fetch.body_json :=
            Some (JS.JObj [("details", JS.JArr [JS.JStr "disk"; JS.JStr "full"])]);
          Fetch.body_reader := None |}
     = "disk,full".
Proof. split; vm_compute; reflexivity. Qed.

(** ** A stream from its text to the drift counts *)

Example stream_A_events :
  Stream.decode_chunks JSON.parse Scenario.stream_A
  = [ JS.JObj [("type", JS.JStr "session_initialized");
               ("session_dir", JS.JStr "/tmp/s1")];
      JS.JObj [("type", JS.JStr "analysis_started");
               ("resources", JS.JArr [JS.JStr "ec2"; JS.JStr "s3"])];
      Scenario.ev_group_update
        [("ec2", JS.JObj [("status", JS.JStr "completed");
                          ("drift_result",
                           JS.JObj [("drifts", JS.JArr [JS.JObj []; JS.JObj []])])]);
         ("s3", JS.JObj [("status", JS.JStr "pending")])];
      JS.JObj [("type", JS.JStr "analysis_complete")] ].
Proof. vm_compute. reflexivity. Qed.

Example stream_A_projection :
  exists st',
    Provider.readStream JSON.parse Scenario.sid Scenario.stream_A Scenario.streaming
    = JS.Ok st'
    /\ (Provider.sessions st' !! Scenario.sid ≫= Provider.analysisComplete)
       = Some true
    /\ (Provider.sessions st' !! Scenario.sid ≫= Provider.isAnalyzing)
       = Some false
    /\ ((Provider.sessions st' !! Scenario.sid ≫= Provider.analysisResults)
        ≫= (fun results : gmap string JS.json => results !! "resources"))
       = Some (JS.JArr [JS.JStr "ec2"; JS.JStr "s3"])
    /\ Component.getDriftCount (Provider.resource_of Scenario.sid "ec2" st')
       = JS.JNum 2
    /\ Component.getDriftCount (Provider.resource_of Scenario.sid "s3" st')
       = JS.JNum 0
    /\ Provider.activeStreams st' = ∅.
Proof.
  eexists. split; [vm_compute; reflexivity|].
  repeat split; vm_compute; reflexivity.
Qed.

(** ** Reading the fields of an event *)

Section Events.
Import JS Provider.

Lemma get_member (data : json) (k : string) (v : json) :
  member data k = Some v -> get (Some data) k = Ok (Some v).
Proof. destruct data; simpl; intros H; try discriminate; by rewrite H. Qed.

Lemma get_not_null (data : json) (k : string) :
  data <> JNull -> get (Some data) k = Ok (member data k).
Proof. by destruct data. Qed.

(** The handler on a session that is stored, for an event that is not
    [null]. *)
Lemma handleStreamingUpdate_stored sessionId data st session :
  sessions st !! sessionId = Some session ->
  data <> JNull ->
  handleStreamingUpdate sessionId data st =
    try! upd := update_session data (member data "type") session in
    Ok (set_activeStreams
          (if upd.2 then delete sessionId (activeStreams st) else activeStreams st)
          (set_sessions (<[sessionId := upd.1]> (sessions st)) st)).
Proof.
  intros Hs Hd. unfold handleStreamingUpdate. rewrite Hs, (get_not_null _ _ Hd).
  simpl. destruct (update_session _ _ _) as [[s' c]|]; reflexivity.
Qed.

Lemma null_or_not (data : json) : data = JNull \/ data <> JNull.
Proof. destruct data; auto; right; discriminate. Qed.

Lemma handleStreamingUpdate_absent sessionId data st :
  sessions st !! sessionId = None ->
  handleStreamingUpdate sessionId data st = Ok st.
Proof. intros H. unfold handleStreamingUpdate. by rewrite H. Qed.

Lemma member_not_null (data : json) (k : string) (v : json) :
  member data k = Some v -> data <> JNull.
Proof. by destruct data. Qed.

End Events.

(** ** Events for a session that is not stored *)

Section Frame.
Import JS Provider.

(** C9. An event applied under a session id that the store does not hold
    changes nothing and raises nothing: the handler returns the very state
    it was given, whatever the event is. *)
Theorem handleStreamingUpdate_unknown_session_noop
  (sessionId : string) (data : json) (st : State) :
  sessions st !! sessionId = None ->
  handleStreamingUpdate sessionId data st = Ok st.
Proof.
  intros Habsent. unfold handleStreamingUpdate.
  destruct (sessions st !! sessionId); [discriminate | reflexivity].
Qed.

Lemma handleStreamingUpdate_unknown_session_noop_witness :
  handleStreamingUpdate "report.tfstate_s1_1700000000000" JNull initial
  = Ok initial.
Proof.
  apply (handleStreamingUpdate_unknown_session_noop
           "report.tfstate_s1_1700000000000" JNull initial).
  reflexivity.
Defined.

(** C10. An [error] event for a stored session changes, of that session,
    the [error] field (to the event's [error]) and [isAnalyzing] (to
    [false]) and nothing else; every other session and the current-session
    cell are as before. *)
Theorem error_event_changes_error_and_flag_only
  (sessionId : string) (data : json) (st : State) (session : AnalysisSession) :
  sessions st !! sessionId = Some session ->
  member data "type" = Some (JStr "error") ->
  exists st' session',
    handleStreamingUpdate sessionId data st = Ok st'
    /\ sessions st' !! sessionId = Some session'
    /\ error session' = member data "error"
    /\ isAnalyzing session' = Some false
    /\ analysisResults session' = analysisResults session
    /\ resourceResults session' = resourceResults session
    /\ id session' = id session
    /\ analysisData session' = analysisData session
    /\ analysisComplete session' = analysisComplete session
    /\ hasStarted session' = hasStarted session
    /\ timestamp session' = timestamp session
    /\ (forall other, other <> sessionId ->
          sessions st' !! other = sessions st !! other)
    /\ currentSession st' = currentSession st.
Proof.
  intros Hs Ht.
  rewrite (handleStreamingUpdate_stored _ _ _ _ Hs (member_not_null _ _ _ Ht)).
  rewrite Ht. simpl.
  eexists _, _. split; [reflexivity|]. simpl.
  rewrite lookup_insert_eq. repeat split; try reflexivity.
  intros other Hne. by rewrite lookup_insert_ne.
Qed.

End Frame.

Section FrameWitness.
Import JS Provider.

Lemma ec2_complete_session :
  sessions Scenario.ec2_complete !! Scenario.sid = Some Scenario.ec2_session.
Proof. vm_compute. reflexivity. Qed.

Lemma error_event_changes_error_and_flag_only_witness :
  exists st' session',
    handleStreamingUpdate Scenario.sid (Scenario.ev_error "backend down")
      Scenario.ec2_complete = Ok st'
    /\ sessions st' !! Scenario.sid = Some session'
    /\ error session' = Some (JStr "backend down")
    /\ isAnalyzing session' = Some false
    /\ resourceResults session' = Some {[ "ec2" := Scenario.ec2_entry ]}.
Proof.
  destruct (error_event_changes_error_and_flag_only
              Scenario.sid (Scenario.ev_error "backend down")
              Scenario.ec2_complete Scenario.ec2_session
              ltac:(vm_compute; reflexivity) ltac:(reflexivity))
    as (st' & session' & H & Hl & He & Hi & _ & Hr & _).
  exists st', session'. repeat split; assumption.
Defined.

End FrameWitness.

(** ** [detection_complete] *)

Section DetectionComplete.
Import JS Provider.

(** The entry [detection_complete] stores, given the one it finds. *)
Lemma update_session_detection_complete data session results resource :
  member data "type" = Some (JStr "detection_complete") ->
  ToPropertyKey (member data "resource") = Ok resource ->
  resourceResults session = Some results ->
  update_session data (member data "type") session =
    let old := spread_result (results !! resource) in
    Ok (set_resourceResults
          (<[resource :=
               {| status := status old;
                  detectionStatus := Some (JStr "complete");
                  reportStatus := reportStatus old;
                  detectionResults := member data "results";
                  reportResults := reportResults old |}]> results)
          session, false).
Proof.
  intros Ht Hk Hr. unfold update_session. rewrite Ht. simpl.
  rewrite Hk. simpl. by rewrite Hr.
Qed.

(** A [detection_complete] whose [resource] has no primitive value. *)
Lemma update_session_detection_complete_throws data session :
  member data "type" = Some (JStr "detection_complete") ->
  ToPropertyKey (member data "resource") = TypeError ->
  update_session data (member data "type") session = TypeError.
Proof. intros Ht Hk. unfold update_session. rewrite Ht. simpl. by rewrite Hk. Qed.

(** C8. A [detection_complete] event for a resource the session has no
    entry for creates the entry: the handler returns normally, the new
    entry has [detectionStatus] ['complete'] and the event's [results] as
    its [detectionResults] (and no other field), and the entries of the
    other resources are as before.  The resource is the key the event's
    [resource] converts to. *)
Theorem detection_complete_creates_entry
  (sessionId : string) (data : json) (st : State)
  (session : AnalysisSession) (results : gmap string ResourceResult)
  (resource : string) :
  sessions st !! sessionId = Some session ->
  resourceResults session = Some results ->
  member data "type" = Some (JStr "detection_complete") ->
  ToPropertyKey (member data "resource") = Ok resource ->
  results !! resource = None ->
  exists st',
    handleStreamingUpdate sessionId data st = Ok st'
    /\ resource_of sessionId resource st'
       = Some {| status := None;
                 detectionStatus := Some (JStr "complete");
                 reportStatus := None;
                 detectionResults := member data "results";
                 reportResults := None |}
    /\ (forall other, other <> resource ->
          resource_of sessionId other st' = results !! other).
Proof.
  intros Hs Hr Ht Hk Hnew.
  rewrite (handleStreamingUpdate_stored _ _ _ _ Hs (member_not_null _ _ _ Ht)).
  rewrite (update_session_detection_complete _ _ _ _ Ht Hk Hr). simpl.
  eexists. split; [reflexivity|].
  unfold resource_of; simpl. rewrite lookup_insert_eq; simpl.
  split.
  - rewrite lookup_insert_eq, Hnew. reflexivity.
  - intros other Hne. by rewrite lookup_insert_ne.
Qed.

Lemma detection_complete_creates_entry_witness :
  exists st',
    handleStreamingUpdate Scenario.sid
      (Scenario.ev_detection_complete "s3" Scenario.two_drifts)
      Scenario.ec2_complete = Ok st'
    /\ resource_of Scenario.sid "s3" st'
       = Some {| status := None;
                 detectionStatus := Some (JStr "complete");
                 reportStatus := None;
                 detectionResults := Some Scenario.two_drifts;
                 reportResults := None |}
    /\ (forall other, other <> "s3" ->
          resource_of Scenario.sid other st'
          = ({[ "ec2" := Scenario.ec2_entry ]} : gmap string ResourceResult) !! other).
Proof.
  apply (detection_complete_creates_entry
           Scenario.sid (Scenario.ev_detection_complete "s3" Scenario.two_drifts)
           Scenario.ec2_complete Scenario.ec2_session
           {[ "ec2" := Scenario.ec2_entry ]} "s3").
  - vm_compute. reflexivity.
  - reflexivity.
  - reflexivity.
  - reflexivity.
  - vm_compute. reflexivity.
Defined.

(** C5. Applying the same [detection_complete] event a second time gives
    the state the first application gave: the handler applied twice equals
    the handler applied once (a [TypeError] of the first application
    included). *)
Theorem detection_complete_replay_idempotent
  (sessionId : string) (data : json) (st : State) :
  member data "type" = Some (JStr "detection_complete") ->
  (try! st1 := handleStreamingUpdate sessionId data st in
   handleStreamingUpdate sessionId data st1)
  = handleStreamingUpdate sessionId data st.
Proof.
  intros Ht. pose proof (member_not_null _ _ _ Ht) as Hd.
  destruct (sessions st !! sessionId) as [session|] eqn:Hs.
  - rewrite (handleStreamingUpdate_stored _ _ _ _ Hs Hd).
    destruct (ToPropertyKey (member data "resource")) as [resource|] eqn:Hk;
      [|by rewrite (update_session_detection_complete_throws _ _ Ht Hk)].
    destruct (resourceResults session) as [results|] eqn:Hr.
    + rewrite (update_session_detection_complete _ _ _ _ Ht Hk Hr). simpl.
      erewrite handleStreamingUpdate_stored; [|apply lookup_insert_eq|exact Hd].
      erewrite update_session_detection_complete; [|exact Ht|exact Hk|reflexivity].
      simpl. rewrite lookup_insert_eq. simpl.
      unfold set_activeStreams, set_sessions, set_resourceResults. simpl.
      by rewrite !insert_insert_eq.
    + unfold update_session. rewrite Ht. simpl. rewrite Hk. simpl. by rewrite Hr.
  - rewrite (handleStreamingUpdate_absent _ _ _ Hs). simpl.
    by apply handleStreamingUpdate_absent.
Qed.

Lemma detection_complete_replay_idempotent_witness :
  (try! st1 := handleStreamingUpdate Scenario.sid
                 (Scenario.ev_detection_complete "ec2" Scenario.two_drifts)
                 Scenario.streaming in
   handleStreamingUpdate Scenario.sid
     (Scenario.ev_detection_complete "ec2" Scenario.two_drifts) st1)
  = handleStreamingUpdate Scenario.sid
      (Scenario.ev_detection_complete "ec2" Scenario.two_drifts)
      Scenario.streaming.
Proof.
  apply (detection_complete_replay_idempotent Scenario.sid
           (Scenario.ev_detection_complete "ec2" Scenario.two_drifts)
           Scenario.streaming).
  reflexivity.
Defined.

End DetectionComplete.

(** ** Statuses and results under later events *)

Section Monotonic.
Import JS Provider Entry.

Lemma group_update_other entries :
  forall (m m' : gmap string ResourceResult) (resource : string),
    group_update entries m = Ok m' ->
    resource ∉ entries.*1 ->
    m' !! resource = m !! resource.
Proof.
  induction entries as [|[k rd] rest IH]; intros m m' resource Hg Hnot; simpl in *.
  - by inversion Hg.
  - destruct (group_entry rd) as [entry|]; simpl in Hg; [|discriminate].
    apply not_elem_of_cons in Hnot as [Hne Hrest].
    rewrite (IH _ _ _ Hg Hrest). by rewrite lookup_insert_ne.
Qed.

Lemma resource_of_stored sessionId resource st e :
  resource_of sessionId resource st = Some e ->
  exists session results,
    sessions st !! sessionId = Some session
    /\ resourceResults session = Some results
    /\ results !! resource = Some e.
Proof.
  unfold resource_of. intros H.
  destruct (sessions st !! sessionId) as [session|]; [|discriminate].
  simpl in H.
  destruct (resourceResults session) as [results|] eqn:Hr; [|discriminate].
  simpl in H. exists session, results. done.
Qed.

Lemma resource_of_updated sessionId resource st session' streams :
  resource_of sessionId resource
    (set_activeStreams streams
       (set_sessions (<[sessionId := session']> (sessions st)) st))
  = results ← resourceResults session'; results !! resource.
Proof. unfold resource_of. simpl. by rewrite lookup_insert_eq. Qed.

(** A batch acts on the entries as a union with a map of its own. *)
Lemma group_update_union entries :
  forall m m',
    group_update entries m = Ok m' ->
    exists batch_entries : gmap string ResourceResult,
      forall m0, group_update entries m0 = Ok (batch_entries ∪ m0).
Proof.
  induction entries as [|[k rd] rest IH]; intros m m' Hg; simpl in *.
  - exists ∅. intros m0. by rewrite (left_id_L ∅ (∪)).
  - destruct (group_entry rd) as [entry|]; simpl in *; [|discriminate].
    destruct (IH _ _ Hg) as [M HM]. exists (M ∪ {[k := entry]}).
    intros m0. rewrite HM. f_equal.
    by rewrite insert_union_singleton_l, (assoc_L (∪)).
Qed.

(** After a batch, a resource has the entry the batch alone gives it, or
    else the one it had. *)
Lemma group_update_lookup entries m m' :
  group_update entries m = Ok m' ->
  exists batch_entries : gmap string ResourceResult,
    group_update entries ∅ = Ok batch_entries
    /\ forall resource,
         m' !! resource
         = match batch_entries !! resource with
           | Some entry => Some entry
           | None => m !! resource
           end.
Proof.
  intros Hg. destruct (group_update_union _ _ _ Hg) as [M HM]. exists M. split.
  - rewrite HM. by rewrite (right_id_L ∅ (∪)).
  - intros resource. rewrite HM in Hg. injection Hg as <-.
    rewrite lookup_union. by destruct (M !! resource), (m !! resource).
Qed.

Lemma is_string_eq (v : value) (s : string) :
  is_string v s = true -> v = Some (JStr s).
Proof.
  destruct v as [[]|]; simpl; try discriminate.
  intros H. apply String.eqb_eq in H. by subst.
Qed.

(** One event, on the entry of a resource: the entry stays, and each of
    its four fields is kept by the events that do not revert it. *)
Lemma handleStreamingUpdate_keeps sessionId data st st' resource e :
  handleStreamingUpdate sessionId data st = Ok st' ->
  resource_of sessionId resource st = Some e ->
  exists e',
    resource_of sessionId resource st' = Some e'
    /\ (reverts_detection resource data = false ->
        complete (detectionStatus e) -> complete (detectionStatus e'))
    /\ (reverts_report resource data = false ->
        complete (reportStatus e) -> complete (reportStatus e'))
    /\ (clears_detection resource data = false ->
        present (detectionResults e) = true ->
        present (detectionResults e') = true)
    /\ (clears_report resource data = false ->
        present (reportResults e) = true ->
        present (reportResults e') = true).
Proof.
  intros Hh He.
  destruct (resource_of_stored _ _ _ _ He) as (session & results & Hs & Hr & Hl).
  assert (Hd : data <> JNull).
  { intros ->. unfold handleStreamingUpdate in Hh. rewrite Hs in Hh. discriminate. }
  rewrite (handleStreamingUpdate_stored _ _ _ _ Hs Hd) in Hh.
  unfold reverts_detection, reverts_report, clears_detection, clears_report,
    stored_by, names.
  unfold update_session in Hh.
  destruct (event_type (member data "type")); simpl in Hh.
  - (* session_initialized *)
    injection Hh as <-. rewrite resource_of_updated. simpl. rewrite Hr. simpl.
    exists e. by rewrite Hl.
  - injection Hh as <-. rewrite resource_of_updated. simpl. rewrite Hr. simpl.
    exists e. by rewrite Hl.
  - (* resource_initialized *)
    destruct (ToPropertyKey (member data "resource")) as [key|];
      simpl in Hh; [|discriminate].
    injection Hh as <-. rewrite resource_of_updated. simpl. rewrite Hr. simpl.
    destruct (String.eqb_spec key resource) as [->|Hne].
    + rewrite lookup_insert_eq. eexists. split; [reflexivity|]. simpl.
      split; [intros H _; by apply is_string_eq, negb_false_iff|].
      split; [intros H _; by apply is_string_eq, negb_false_iff|].
      split; intros H; discriminate.
    + rewrite lookup_insert_ne by done. exists e. by rewrite Hl.
  - (* resource_group_update *)
    destruct (batch data) as [resources|].
    + destruct (analysisResults session) as [ar|]; [|discriminate].
      rewrite Hr in Hh. simpl in Hh.
      destruct (group_update _ results) as [updated|] eqn:Hg; [|discriminate].
      simpl in Hh. injection Hh as <-.
      rewrite resource_of_updated. simpl.
      destruct (group_update_lookup _ _ _ Hg) as (M & HM & Hlookup).
      rewrite HM, Hlookup.
      destruct (M !! resource) as [entry|].
      * exists entry. split; [reflexivity|].
        split; [intros H _; by apply is_string_eq, negb_false_iff|].
        split; [intros H _; by apply is_string_eq, negb_false_iff|].
        split; intros H _; by apply negb_false_iff.
      * exists e. by rewrite Hl.
    + simpl in Hh. injection Hh as <-. rewrite resource_of_updated.
      rewrite Hr. simpl. exists e. by rewrite Hl.
  - (* detection_complete *)
    destruct (ToPropertyKey (member data "resource")) as [key|];
      simpl in Hh; [|discriminate].
    rewrite Hr in Hh. simpl in Hh. injection Hh as <-.
    rewrite resource_of_updated. simpl.
    destruct (String.eqb_spec key resource) as [->|Hne].
    + rewrite lookup_insert_eq, Hl. simpl. eexists. split; [reflexivity|]. simpl.
      split; [done|]. split; [done|].
      split; [intros H _; by apply negb_false_iff|done].
    + rewrite lookup_insert_ne by done. exists e. by rewrite Hl.
  - (* report_complete *)
    destruct (ToPropertyKey (member data "resource")) as [key|];
      simpl in Hh; [|discriminate].
    rewrite Hr in Hh. simpl in Hh. injection Hh as <-.
    rewrite resource_of_updated. simpl.
    destruct (String.eqb_spec key resource) as [->|Hne].
    + rewrite lookup_insert_eq, Hl. simpl. eexists. split; [reflexivity|]. simpl.
      split; [done|]. split; [done|].
      split; [done|intros H _; by apply negb_false_iff].
    + rewrite lookup_insert_ne by done. exists e. by rewrite Hl.
  - injection Hh as <-. rewrite resource_of_updated. simpl. rewrite Hr. simpl.
    exists e. by rewrite Hl.
  - injection Hh as <-. rewrite resource_of_updated. simpl. rewrite Hr. simpl.
    exists e. by rewrite Hl.
  - injection Hh as <-. rewrite resource_of_updated. rewrite Hr. simpl.
    exists e. by rewrite Hl.
Qed.

(** What the two events that replace an entry store: a
    [resource_initialized] the statuses the event names, or ['pending'],
    and no results; a [resource_group_update] the entry computed from the
    resource's record in the batch, whose [detectionStatus] is ['complete']
    exactly when the record is completed or has a detection result. *)
Lemma resource_initialized_stores sessionId data st session resource :
  sessions st !! sessionId = Some session ->
  member data "type" = Some (JStr "resource_initialized") ->
  ToPropertyKey (member data "resource") = Ok resource ->
  exists st',
    handleStreamingUpdate sessionId data st = Ok st'
    /\ resource_of sessionId resource st' = Some (initialized_entry data).
Proof.
  intros Hs Ht Hk.
  rewrite (handleStreamingUpdate_stored _ _ _ _ Hs (member_not_null _ _ _ Ht)).
  unfold update_session. rewrite Ht. simpl. rewrite Hk. simpl.
  eexists. split; [reflexivity|].
  rewrite resource_of_updated. simpl. by rewrite lookup_insert_eq.
Qed.

Lemma group_update_stores entries :
  forall (m m' : gmap string ResourceResult) resource resourceData,
    NoDup entries.*1 ->
    (resource, resourceData) ∈ entries ->
    group_update entries m = Ok m' ->
    exists entry,
      group_entry resourceData = Ok entry /\ m' !! resource = Some entry.
Proof.
  induction entries as [|[k rd] rest IH];
    intros m m' resource resourceData Hnd Hin Hg; simpl in *.
  - by apply elem_of_nil in Hin.
  - apply NoDup_cons in Hnd as [Hk Hnd].
    destruct (group_entry rd) as [entry|] eqn:He; simpl in Hg; [|discriminate].
    apply elem_of_cons in Hin as [Heq|Hin].
    + injection Heq as -> ->. exists entry. split; [done|].
      rewrite (group_update_other _ _ _ _ Hg Hk). apply lookup_insert_eq.
    + by apply (IH _ _ _ _ Hnd Hin Hg).
Qed.

Lemma resource_group_update_stores sessionId data st st' resources
  resource resourceData :
  member data "type" = Some (JStr "resource_group_update") ->
  batch data = Some resources ->
  NoDup (Object_keys resources) ->
  (resource, resourceData) ∈ Object_entries resources ->
  is_Some (sessions st !! sessionId) ->
  handleStreamingUpdate sessionId data st = Ok st' ->
  exists entry,
    group_entry resourceData = Ok entry
    /\ resource_of sessionId resource st' = Some entry.
Proof.
  intros Ht Hb Hnd Hin [session Hs] Hh.
  rewrite (handleStreamingUpdate_stored _ _ _ _ Hs (member_not_null _ _ _ Ht)) in Hh.
  unfold update_session in Hh. rewrite Ht in Hh. simpl in Hh. rewrite Hb in Hh.
  destruct (analysisResults session) as [ar|]; [|discriminate].
  destruct (group_update _ _) as [updated|] eqn:Hg; [|discriminate].
  simpl in Hh. injection Hh as <-.
  destruct (group_update_stores _ _ _ _ _ Hnd Hin Hg) as (entry & He & Hl).
  exists entry. split; [done|]. rewrite resource_of_updated. simpl. exact Hl.
Qed.

Lemma group_entry_detectionStatus resourceData entry :
  group_entry resourceData = Ok entry ->
  detectionStatus entry
  = Some (JStr (if is_string (member resourceData "status") "completed"
                   || hasDetectionResults (member resourceData "drift_result")
                then "complete" else "pending"))
  /\ detectionResults entry = member resourceData "drift_result".
Proof.
  unfold group_entry. destruct resourceData; simpl; try discriminate;
    intros Heq; injection Heq as <-; done.
Qed.

Lemma group_entry_reportStatus resourceData entry :
  group_entry resourceData = Ok entry ->
  reportStatus entry
  = Some (JStr (if is_string (member resourceData "status") "completed"
                   || truthy (member resourceData "report")
                then "complete" else "pending"))
  /\ reportResults entry = member resourceData "report".
Proof.
  unfold group_entry. destruct resourceData; simpl; try discriminate;
    intros Heq; injection Heq as <-; done.
Qed.

(** The events that revert a [detectionStatus], read off the event: a
    [resource_initialized] that names the resource reverts it unless the
    event itself says ['complete']; a batch reverts it when the record it
    has for the resource is neither completed nor has a detection result. *)
Lemma reverts_detection_initialized data resource :
  member data "type" = Some (JStr "resource_initialized") ->
  ToPropertyKey (member data "resource") = Ok resource ->
  reverts_detection resource data
  = negb (is_string (member data "detectionStatus") "complete").
Proof.
  intros Ht Hk. unfold reverts_detection, stored_by, names.
  rewrite Ht, Hk. simpl. rewrite String.eqb_refl. simpl. unfold or_else.
  destruct (member data "detectionStatus") as [[| [] | n | s | |]|]; try reflexivity.
  - simpl. by destruct (n =? 0).
  - simpl. by destruct s.
Qed.

Lemma reverts_detection_group data resources resource resourceData updated :
  member data "type" = Some (JStr "resource_group_update") ->
  batch data = Some resources ->
  NoDup (Object_keys resources) ->
  (resource, resourceData) ∈ Object_entries resources ->
  group_update (Object_entries resources) ∅ = Ok updated ->
  reverts_detection resource data
  = negb (is_string (member resourceData "status") "completed"
          || hasDetectionResults (member resourceData "drift_result")).
Proof.
  intros Ht Hb Hnd Hin Hg. unfold reverts_detection, stored_by.
  rewrite Ht. simpl. rewrite Hb, Hg.
  destruct (group_update_stores _ _ _ _ _ Hnd Hin Hg) as (entry & He & ->).
  destruct (group_entry_detectionStatus _ _ He) as [-> _].
  by destruct (_ || _).
Qed.

(** An event that stores an entry of its own for the resource leaves the
    resource with that entry, whatever it had. *)
Lemma stored_by_stores sessionId data st st' resource entry :
  is_Some (sessions st !! sessionId) ->
  handleStreamingUpdate sessionId data st = Ok st' ->
  stored_by resource data = Some entry ->
  resource_of sessionId resource st' = Some entry.
Proof.
  intros [session Hs] Hh Hst.
  assert (Hd : data <> JNull).
  { intros ->. unfold handleStreamingUpdate in Hh. rewrite Hs in Hh. discriminate. }
  rewrite (handleStreamingUpdate_stored _ _ _ _ Hs Hd) in Hh.
  unfold stored_by, names in Hst. unfold update_session in Hh.
  destruct (event_type (member data "type")); simpl in Hh; try discriminate.
  - destruct (ToPropertyKey (member data "resource")) as [key|];
      simpl in Hh; [|discriminate].
    destruct (String.eqb_spec key resource) as [->|Hne]; [|discriminate].
    injection Hst as <-. injection Hh as <-.
    rewrite resource_of_updated. simpl. apply lookup_insert_eq.
  - destruct (batch data) as [resources|]; [|discriminate].
    destruct (analysisResults session) as [ar|]; [|discriminate].
    destruct (group_update _ (spread _)) as [updated|] eqn:Hg; [|discriminate].
    simpl in Hh. injection Hh as <-. rewrite resource_of_updated. simpl.
    destruct (group_update_lookup _ _ _ Hg) as (M & HM & Hlookup).
    rewrite HM in Hst. by rewrite Hlookup, Hst.
Qed.

(** The events set aside below are the ones that do revert: after an event
    with [reverts_detection], the resource's [detectionStatus] is not
    ['complete'], whatever it was; after one with [clears_detection], the
    resource has no detection result. *)
Lemma reverts_detection_reverts sessionId data st st' resource :
  is_Some (sessions st !! sessionId) ->
  handleStreamingUpdate sessionId data st = Ok st' ->
  reverts_detection resource data = true ->
  exists e',
    resource_of sessionId resource st' = Some e'
    /\ ~ complete (detectionStatus e').
Proof.
  intros Hs Hh Hrev. unfold reverts_detection in Hrev.
  destruct (stored_by resource data) as [entry|] eqn:Hst; [|discriminate].
  exists entry. split; [by apply (stored_by_stores _ _ _ _ _ _ Hs Hh)|].
  intros Hc. rewrite Hc in Hrev. discriminate.
Qed.

Lemma clears_detection_clears sessionId data st st' resource e :
  handleStreamingUpdate sessionId data st = Ok st' ->
  resource_of sessionId resource st = Some e ->
  clears_detection resource data = true ->
  exists e',
    resource_of sessionId resource st' = Some e'
    /\ present (detectionResults e') = false.
Proof.
  intros Hh He Hcl.
  destruct (resource_of_stored _ _ _ _ He) as (session & results & Hs & Hr & Hl).
  unfold clears_detection in Hcl.
  destruct (stored_by resource data) as [entry|] eqn:Hst.
  - exists entry. split; [by apply (stored_by_stores _ _ _ _ _ _ (mk_is_Some _ _ Hs) Hh)|].
    by apply negb_true_iff.
  - assert (Hd : data <> JNull).
    { intros ->. unfold handleStreamingUpdate in Hh. rewrite Hs in Hh. discriminate. }
    rewrite (handleStreamingUpdate_stored _ _ _ _ Hs Hd) in Hh.
    unfold update_session in Hh. unfold names in Hcl.
    destruct (event_type (member data "type")); try discriminate.
    destruct (ToPropertyKey (member data "resource")) as [key|];
      simpl in Hh; [|discriminate].
    apply andb_true_iff in Hcl as [Hkey Hres].
    apply String.eqb_eq in Hkey. subst key.
    rewrite Hr in Hh. simpl in Hh. injection Hh as <-.
    rewrite resource_of_updated. simpl. rewrite lookup_insert_eq.
    eexists. split; [reflexivity|]. simpl. by apply negb_true_iff.
Qed.

(** C1, as the code has it.  The entry of a resource is never removed by
    events that are applied.  Its [detectionStatus], once ['complete'],
    stays ['complete'] through every sequence of applied events none of
    which stores for the resource an entry of its own whose
    [detectionStatus] is not ['complete'] ([reverts_detection]); likewise
    its [reportStatus] ([reverts_report]).  Its [detectionResults], once
    there (neither [undefined] nor [null]), are there after every sequence
    of applied events none of which leaves the resource without a
    detection result ([clears_detection]); likewise its [reportResults]
    ([clears_report]). *)
Theorem complete_kept_unless_reverted
  (sessionId : string) (events : list json) (resource : string) :
  forall (st st' : State) (e : ResourceResult),
    apply_events sessionId events st = Ok st' ->
    resource_of sessionId resource st = Some e ->
    exists e',
      resource_of sessionId resource st' = Some e'
      /\ (Forall (fun data => reverts_detection resource data = false) events ->
          complete (detectionStatus e) -> complete (detectionStatus e'))
      /\ (Forall (fun data => reverts_report resource data = false) events ->
          complete (reportStatus e) -> complete (reportStatus e'))
      /\ (Forall (fun data => clears_detection resource data = false) events ->
          present (detectionResults e) = true ->
          present (detectionResults e') = true)
      /\ (Forall (fun data => clears_report resource data = false) events ->
          present (reportResults e) = true ->
          present (reportResults e') = true).
Proof.
  induction events as [|data rest IH]; intros st st' e Happly He; simpl in Happly.
  - injection Happly as <-. exists e. done.
  - destruct (handleStreamingUpdate sessionId data st) as [st1|] eqn:H1;
      [|discriminate].
    simpl in Happly.
    destruct (handleStreamingUpdate_keeps _ _ _ _ _ _ H1 He)
      as (e1 & He1 & Hd1 & Hp1 & Hdr1 & Hpr1).
    destruct (IH _ _ _ Happly He1) as (e' & He' & Hd' & Hp' & Hdr' & Hpr').
    exists e'. split; [done|].
    repeat split; intros Hall; apply Forall_cons in Hall as [Hfirst Hall]; auto.
Qed.

Lemma complete_kept_unless_reverted_witness :
  exists st' e',
    apply_events Scenario.sid Cases.ec2_later_events Scenario.ec2_complete = Ok st'
    /\ resource_of Scenario.sid "ec2" st' = Some e'
    /\ complete (detectionStatus e')
    /\ present (detectionResults e') = true.
Proof.
  destruct (apply_events Scenario.sid Cases.ec2_later_events Scenario.ec2_complete)
    as [st'|] eqn:Happly; [|vm_compute in Happly; discriminate].
  destruct (complete_kept_unless_reverted
              Scenario.sid Cases.ec2_later_events "ec2"
              Scenario.ec2_complete st' Scenario.ec2_entry
              Happly ltac:(vm_compute; reflexivity))
    as (e' & He' & Hd & _ & Hres & _).
  exists st', e'. split; [reflexivity|]. split; [exact He'|].
  split.
  - apply Hd; [|reflexivity].
    repeat (constructor; [vm_compute; reflexivity|]). constructor.
  - apply Hres; [|reflexivity].
    repeat (constructor; [vm_compute; reflexivity|]). constructor.
Defined.

(** C1, as stated, fails on the code.  With [ec2] stored as complete with
    its two drifts, a [resource_group_update] whose batch carries [ec2] as
    still processing, and likewise a late [resource_initialized] for [ec2],
    put its two statuses back to ['pending'] and drop the stored result. *)
Lemma complete_reverted_by_group_update_and_by_late_initialized :
  resource_of Scenario.sid "ec2" Scenario.ec2_complete
  = Some {| status := None;
            detectionStatus := Some (JStr "complete");
            reportStatus := None;
            detectionResults := Some Scenario.two_drifts;
            reportResults := None |}
  /\ (exists st',
        handleStreamingUpdate Scenario.sid
          (Scenario.ev_group_update [("ec2", JObj [("status", JStr "processing")])])
          Scenario.ec2_complete = Ok st'
        /\ resource_of Scenario.sid "ec2" st'
           = Some {| status := Some (JStr "processing");
                     detectionStatus := Some (JStr "pending");
                     reportStatus := Some (JStr "pending");
                     detectionResults := None;
                     reportResults := None |})
  /\ (exists st',
        handleStreamingUpdate Scenario.sid
          (Scenario.ev_resource_initialized "ec2")
          Scenario.ec2_complete = Ok st'
        /\ resource_of Scenario.sid "ec2" st'
           = Some {| status := Some (JStr "initialized");
                     detectionStatus := Some (JStr "pending");
                     reportStatus := Some (JStr "pending");
                     detectionResults := None;
                     reportResults := None |}).
Proof.
  split; [vm_compute; reflexivity|].
  split; eexists; (split; [vm_compute; reflexivity|vm_compute; reflexivity]).
Qed.

End Monotonic.

(** ** Cancellation *)

Section Cancellation.
Import JS Provider.

(** The [switch] does not read [isAnalyzing]: on a session whose flag was
    cleared it does what it does on the session itself. *)
Lemma update_session_stopped data type session :
  update_session data type (set_isAnalyzing false session)
  = rmap (fun upd => (set_isAnalyzing false upd.1, upd.2))
         (update_session data type session).
Proof.
  unfold update_session.
  destruct (event_type type); simpl; try reflexivity.
  - destruct (ToPropertyKey (member data "resource")); reflexivity.
  - destruct (batch data) as [resources|]; [|reflexivity].
    destruct (analysisResults session) as [results|]; [|reflexivity].
    destruct (group_update _ _) as [updated|]; reflexivity.
  - destruct (ToPropertyKey (member data "resource")); [|reflexivity].
    simpl. destruct (resourceResults session); reflexivity.
  - destruct (ToPropertyKey (member data "resource")); [|reflexivity].
    simpl. destruct (resourceResults session); reflexivity.
Qed.

(** The [finally] of the read loop after [stopAnalysis] finds the handle
    gone already. *)
Lemma release_stopAnalysis sessionId st :
  release sessionId (stopAnalysis sessionId st) = stopAnalysis sessionId st.
Proof.
  unfold release, stopAnalysis, set_activeStreams. simpl.
  by rewrite delete_delete_eq.
Qed.

(** C2, as the code has it.  [stopAnalysis] on a stored session clears its
    [isAnalyzing] flag and leaves its other fields, the other sessions and
    the current-session cell alone; it removes the session's entry of
    [activeStreams] and calls [abort] and [cancel] on the reader of that
    entry, and on nothing when no entry is registered.  The update handler
    has no check for cancellation: on the sessions, an event applied after
    [stopAnalysis] has the effect it has when applied before it.  The read
    loop, once its read reports [done] or is rejected with [AbortError],
    ends and leaves the stopped state as it is, whatever the stream would
    still deliver. *)
Theorem stopAnalysis_cancels_reader_only
  (parse : string -> option json) (sessionId : string) (data : json)
  (st : State) (session : AnalysisSession) :
  sessions st !! sessionId = Some session ->
  sessions (stopAnalysis sessionId st)
    = <[sessionId := set_isAnalyzing false session]> (sessions st)
  /\ currentSession (stopAnalysis sessionId st) = currentSession st
  /\ activeStreams (stopAnalysis sessionId st)
     = delete sessionId (activeStreams st)
  /\ activeStreams (stopAnalysis sessionId st) !! sessionId = None
  /\ (forall handle, activeStreams st !! sessionId = Some handle ->
        cancelled (stopAnalysis sessionId st) = {[reader handle]} ∪ cancelled st)
  /\ (activeStreams st !! sessionId = None ->
        cancelled (stopAnalysis sessionId st) = cancelled st)
  /\ rmap sessions (handleStreamingUpdate sessionId data (stopAnalysis sessionId st))
     = rmap (fun st' => sessions (stopAnalysis sessionId st'))
            (handleStreamingUpdate sessionId data st)
  /\ (forall message rest,
        readStream_loop parse sessionId
          (Fetch.Failed "AbortError" message :: rest) (stopAnalysis sessionId st)
        = Ok (stopAnalysis sessionId st))
  /\ (forall rest,
        readStream_loop parse sessionId (Fetch.Done :: rest)
          (stopAnalysis sessionId st)
        = Ok (stopAnalysis sessionId st)).
Proof.
  intros Hs.
  assert (Hstop : sessions (stopAnalysis sessionId st)
                  = <[sessionId := set_isAnalyzing false session]> (sessions st)).
  { unfold stopAnalysis; simpl. by rewrite Hs. }
  split; [exact Hstop|]. split; [reflexivity|]. split; [reflexivity|].
  split; [apply lookup_delete_eq|].
  split; [by intros handle Hh; unfold stopAnalysis; simpl; rewrite Hh|].
  split; [by intros Hh; unfold stopAnalysis; simpl; rewrite Hh|].
  split;
    [|split; [intros message rest|intros rest]; simpl;
      by rewrite release_stopAnalysis].
  destruct (null_or_not data) as [->|Hd].
  - unfold handleStreamingUpdate. rewrite Hstop, lookup_insert_eq, Hs. reflexivity.
  - erewrite (handleStreamingUpdate_stored sessionId data (stopAnalysis sessionId st));
      [|rewrite Hstop; apply lookup_insert_eq|exact Hd].
    rewrite (handleStreamingUpdate_stored _ _ _ _ Hs Hd).
    rewrite update_session_stopped.
    destruct (update_session data (member data "type") session) as [[s' c]|];
      [|reflexivity].
    simpl. rewrite lookup_insert_eq; simpl. by rewrite !insert_insert_eq.
Qed.

Lemma stopAnalysis_cancels_reader_only_witness :
  sessions (stopAnalysis Scenario.sid Scenario.streaming)
    = <[Scenario.sid :=
          set_isAnalyzing false
            (newSession Scenario.analysisData Scenario.now Scenario.now)]>
        (sessions Scenario.streaming)
  /\ activeStreams (stopAnalysis Scenario.sid Scenario.streaming) = ∅
  /\ cancelled (stopAnalysis Scenario.sid Scenario.streaming) = {[ 1%nat ]}
  /\ rmap sessions
       (handleStreamingUpdate Scenario.sid
          (Scenario.ev_detection_complete "ec2" Scenario.two_drifts)
          (stopAnalysis Scenario.sid Scenario.streaming))
     = rmap (fun st' => sessions (stopAnalysis Scenario.sid st'))
         (handleStreamingUpdate Scenario.sid
            (Scenario.ev_detection_complete "ec2" Scenario.two_drifts)
            Scenario.streaming)
  /\ readStream_loop JSON.parse Scenario.sid
       [Fetch.Failed "AbortError" "The operation was aborted.";
        Fetch.Chunk Scenario.line_analysis_complete; Fetch.Done]
       (stopAnalysis Scenario.sid Scenario.streaming)
     = Ok (stopAnalysis Scenario.sid Scenario.streaming).
Proof.
  destruct (stopAnalysis_cancels_reader_only JSON.parse Scenario.sid
              (Scenario.ev_detection_complete "ec2" Scenario.two_drifts)
              Scenario.streaming
              (newSession Scenario.analysisData Scenario.now Scenario.now)
              ltac:(vm_compute; reflexivity))
    as (Hsessions & _ & Hstreams & _ & Hcancel & _ & Hcommute & Hloop & _).
  split; [exact Hsessions|].
  split; [rewrite Hstreams; vm_compute; reflexivity|].
  split.
  - rewrite (Hcancel {| reader := 1 |}) by (vm_compute; reflexivity).
    vm_compute. reflexivity.
  - split; [exact Hcommute|apply Hloop].
Defined.

(** [stopAnalysis] called while [startAnalysis] awaits the response finds
    no handle: it cancels nothing, the reader is registered when the
    response arrives, and the stream is read and applied to the session. *)
Example stopAnalysis_while_fetching_cancels_nothing :
  let begun :=
    startAnalysis_begin Scenario.analysisData Scenario.now Scenario.now initial in
  let stopped := stopAnalysis Scenario.sid begun in
  let answered :=
    startAnalysis_response Scenario.sid
      (Fetch.Resolved (Scenario.response_ok 1)) stopped in
  cancelled stopped = ∅
  /\ answered.2 = true
  /\ activeStreams answered.1 !! Scenario.sid = Some {| reader := 1 |}
  /\ exists st',
       readStream JSON.parse Scenario.sid Scenario.stream_A answered.1 = Ok st'
       /\ cancelled st' = ∅
       /\ Component.getDriftCount (resource_of Scenario.sid "ec2" st') = JNum 2.
Proof.
  cbv zeta. split; [vm_compute; reflexivity|]. split; [reflexivity|].
  split; [vm_compute; reflexivity|].
  eexists. split; [vm_compute; reflexivity|].
  split; vm_compute; reflexivity.
Qed.

(** C2, as stated, fails on the code.  After [stopAnalysis] the session
    has no entry for [ec2] and no stream handle; a [detection_complete]
    handed to the update handler then is applied all the same, and the
    session has the entry. *)
Lemma late_event_after_stopAnalysis_mutates :
  let stopped := stopAnalysis Scenario.sid Scenario.streaming in
  activeStreams stopped !! Scenario.sid = None
  /\ (sessions stopped !! Scenario.sid ≫= isAnalyzing) = Some false
  /\ resource_of Scenario.sid "ec2" stopped = None
  /\ exists st',
       handleStreamingUpdate Scenario.sid
         (Scenario.ev_detection_complete "ec2" Scenario.two_drifts) stopped
       = Ok st'
       /\ resource_of Scenario.sid "ec2" st' = Some Scenario.ec2_entry
       /\ st' <> stopped.
Proof.
  cbv zeta.
  split; [vm_compute; reflexivity|]. split; [vm_compute; reflexivity|].
  split; [vm_compute; reflexivity|].
  eexists. split; [vm_compute; reflexivity|].
  split; [vm_compute; reflexivity|].
  intros Heq.
  apply (f_equal (resource_of Scenario.sid "ec2")) in Heq.
  vm_compute in Heq. discriminate.
Qed.

End Cancellation.

(** ** Session ids and [startAnalysis] *)

Section SessionIds.
Import JS Provider.








Lemma append_assoc (a b c : string) : (a +:+ b) +:+ c = a +:+ (b +:+ c).
Proof.
  induction a as [|x a IH]; [done|].
  change (String x ((a +:+ b) +:+ c) = String x (a +:+ (b +:+ c))).
  by rewrite IH.
Qed.





End SessionIds.

(** ** The decoder and the way the stream is cut into chunks *)

Section Chunking.
Import JS Stream.

Variable parse : string -> option json.

Lemma split_nonempty s : split s <> [].
Proof.
  destruct s as [|c r]; simpl; [done|].
  destruct (Ascii.eqb c JSON.newline); [done|].
  by destruct (split r).
Qed.

(** A line break between two texts separates their lines. *)
Lemma split_at_newline a b :
  split (a +:+ String JSON.newline b) = split a ++ split b.
Proof.
  induction a as [|c a IH].
  - reflexivity.
  - change (String c a +:+ String JSON.newline b)
      with (String c (a +:+ String JSON.newline b)).
    simpl. rewrite IH.
    destruct (Ascii.eqb c JSON.newline); [reflexivity|].
    pose proof (split_nonempty a) as Hne.
    destruct (split a) as [|l ls]; [done|reflexivity].
Qed.

Lemma append_empty_r (s : string) : s +:+ EmptyString = s.
Proof.
  induction s as [|c s IH]; [done|].
  change (String c (s +:+ EmptyString) = String c s). by rewrite IH.
Qed.

Lemma line_aligned_inv chunk :
  line_aligned chunk = true ->
  chunk = EmptyString
  \/ exists body, chunk = body +:+ String JSON.newline EmptyString.
Proof.
  induction chunk as [|c r IH]; [by left|]. intros H. right.
  destruct r as [|c' r'].
  - simpl in H. apply Ascii.eqb_eq in H as ->. by exists EmptyString.
  - destruct (IH H) as [?|[body ->]]; [done|]. by exists (String c body).
Qed.

Lemma concat_cons (c : string) (cs : list string) :
  String.concat EmptyString (c :: cs) = c +:+ String.concat EmptyString cs.
Proof.
  destruct cs as [|c' cs]; simpl; [by rewrite append_empty_r|reflexivity].
Qed.

(** An aligned chunk in front of a text: its events come first, and no
    line runs over the boundary. *)
Lemma decode_aligned_prefix chunk rest :
  line_aligned chunk = true ->
  omap (decode_line parse) (split (chunk +:+ rest))
  = decode_chunk parse chunk ++ omap (decode_line parse) (split rest).
Proof.
  intros H. destruct (line_aligned_inv _ H) as [->|[body ->]]; [reflexivity|].
  unfold decode_chunk.
  rewrite (split_at_newline body EmptyString).
  rewrite append_assoc.
  change (String JSON.newline EmptyString +:+ rest) with (String JSON.newline rest).
  rewrite split_at_newline, !omap_app. simpl.
  by rewrite app_nil_r.
Qed.

(** C3, as the code has it. The loop decodes every chunk by itself and
    keeps no text from one chunk to the next.  It yields the events of the
    whole stream, split on line breaks and parsed line by line, when every
    chunk but the last ends where a line ends. *)
Theorem decode_chunks_of_aligned_chunks (chunks : list string) (last : string) :
  Forall (fun chunk => line_aligned chunk = true) chunks ->
  decode_chunks parse (chunks ++ [last]) = decode_stream parse (chunks ++ [last]).
Proof.
  induction 1 as [|chunk chunks Hchunk _ IH].
  - unfold decode_chunks, decode_stream. simpl. by rewrite app_nil_r.
  - unfold decode_stream.
    change ((chunk :: chunks) ++ [last]) with (chunk :: (chunks ++ [last])).
    rewrite concat_cons, (decode_aligned_prefix _ _ Hchunk).
    unfold decode_chunks. simpl. f_equal. exact IH.
Qed.

End Chunking.

Section ChunkingOnText.
Import JS Stream.

Lemma decode_chunks_of_aligned_chunks_witness :
  decode_chunks JSON.parse
    ([Scenario.line_analysis_complete; EmptyString] ++ [Scenario.line_analysis_complete])
  = decode_stream JSON.parse
      ([Scenario.line_analysis_complete; EmptyString] ++ [Scenario.line_analysis_complete]).
Proof.
  apply (decode_chunks_of_aligned_chunks JSON.parse
           [Scenario.line_analysis_complete; EmptyString]
           Scenario.line_analysis_complete).
  repeat constructor.
Defined.

(** C3, as stated, fails on the code.  The line that ends the analysis,
    cut inside its prefix or inside its record, is lost: the loop hands
    over no event, where the whole stream holds one. *)
Lemma decode_chunks_loses_a_cut_line :
  String.concat EmptyString Scenario.cut_in_prefix = Scenario.line_analysis_complete
  /\ String.concat EmptyString Scenario.cut_in_record = Scenario.line_analysis_complete
  /\ decode_stream JSON.parse Scenario.cut_in_prefix
     = [JObj [("type", JStr "analysis_complete")]]
  /\ decode_chunks JSON.parse Scenario.cut_in_prefix = []
  /\ decode_stream JSON.parse Scenario.cut_in_record
     = [JObj [("type", JStr "analysis_complete")]]
  /\ decode_chunks JSON.parse Scenario.cut_in_record = [].
Proof. repeat split; vm_compute; reflexivity. Qed.

End ChunkingOnText.

(** ** The drift count of a resource *)

Section DriftCount.
Import JS Provider.

(** C4, as the code has it. The drift count is the [drift_count] field of
    the detection result whenever the field is there, whatever it holds;
    only without it is it the count the design document describes: the
    number of entries of [drifts] when that is a list, and zero otherwise,
    zero also when the resource has no detection result. *)
Theorem getDriftCount_prefers_drift_count (results : option ResourceResult) :
  Component.getDriftCount results
  = match member_opt (results ≫= detectionResults) "drift_count" with
    | Some count => count
    | None => Component.spec_drift_count results
    end.
Proof.
  unfold Component.getDriftCount, Component.spec_drift_count.
  destruct results as [[st ds rs [data|] rr]|]; simpl; try reflexivity.
  destruct data as [| b | n | s | elems | props]; simpl; try reflexivity.
  - by destruct b.
  - by destruct (n =? 0).
  - by destruct (String.eqb s "").
  - destruct (lookup_prop "drift_count" props); [reflexivity|].
    by destruct (lookup_prop "drifts" props) as [[]|].
Qed.

(** Without a [drift_count], the count is the number of stored drifts. *)
Lemma getDriftCount_counts_drifts (results : ResourceResult) data drifts :
  detectionResults results = Some data ->
  member data "drift_count" = None ->
  member data "drifts" = Some (JArr drifts) ->
  Component.getDriftCount (Some results) = JNum (Z.of_nat (length drifts)).
Proof.
  intros Hd Hc Hl. unfold Component.getDriftCount. rewrite Hd.
  destruct data; simpl in *; try discriminate. by rewrite Hc, Hl.
Qed.

(** C4, as stated, fails on the code.  A [detection_complete] stores a
    result with one drift and a [drift_count] of five: the count of the
    design document is one, the count of the code is five. *)
Lemma getDriftCount_differs_from_number_of_drifts :
  exists st',
    handleStreamingUpdate Scenario.sid
      (Scenario.ev_detection_complete "ec2" Scenario.count_and_list)
      Scenario.streaming = Ok st'
    /\ (resource_of Scenario.sid "ec2" st' ≫= detectionResults)
       = Some (JObj [("drift_count", JNum 5);
                     ("drifts", JArr [JObj [("type", JStr "missing_tag")]])])
    /\ Component.spec_drift_count (resource_of Scenario.sid "ec2" st') = JNum 1
    /\ Component.getDriftCount (resource_of Scenario.sid "ec2" st') = JNum 5.
Proof.
  eexists. split; [vm_compute; reflexivity|].
  repeat split; vm_compute; reflexivity.
Qed.

End DriftCount.

(** ** Responses that are not [ok] *)

Section ErrorMapping.
Import JS.

Lemma known_status_not_ok (r : Fetch.Response) :
  Fetch.status r = 423 \/ Fetch.status r = 401 \/ Fetch.status r = 403 ->
  Fetch.ok r = false.
Proof. unfold Fetch.ok. intros [->| [->| ->]]; reflexivity. Qed.

(** The component maps the three status codes to messages of its own,
    stops analyzing and does not read a stream. *)
Lemma component_maps_known_status (r : Fetch.Response) (st : Component.State) :
  (Fetch.status r = 423 ->
   Component.startAnalysis_response (Fetch.Resolved r) st
   = (Component.refuse Component.in_progress_message st, false))
  /\ (Fetch.status r = 401 ->
      Component.startAnalysis_response (Fetch.Resolved r) st
      = (Component.refuse Component.authentication_message st, false))
  /\ (Fetch.status r = 403 ->
      Component.startAnalysis_response (Fetch.Resolved r) st
      = (Component.refuse Component.forbidden_message st, false)).
Proof.
  unfold Component.startAnalysis_response, Fetch.ok.
  repeat split; intros ->; reflexivity.
Qed.

(** For every other response that is not [ok] the component fails with the
    message computed from the body, and does not read a stream. *)
Lemma component_other_status (r : Fetch.Response) (st : Component.State) :
  Fetch.ok r = false ->
  Fetch.status r <> 423 -> Fetch.status r <> 401 -> Fetch.status r <> 403 ->
  Component.startAnalysis_response (Fetch.Resolved r) st
  = (Component.fail (Provider.errorMessage r) st, false).
Proof.
  intros Hok H1 H2 H3. unfold Component.startAnalysis_response. rewrite Hok.
  by rewrite !(proj2 (Z.eqb_neq _ _)).
Qed.

(** The provider has one answer to every response that is not [ok]: the
    message computed from the body. *)
Lemma provider_any_status (sessionId : string) (r : Fetch.Response)
  (st : Provider.State) :
  Fetch.ok r = false ->
  Provider.startAnalysis_response sessionId (Fetch.Resolved r) st
  = (Provider.fail_session sessionId (Provider.errorMessage r) st, false).
Proof. intros Hok. unfold Provider.startAnalysis_response. by rewrite Hok. Qed.

(** The message carries [details], else [error], of the body. *)
Lemma errorMessage_details (r : Fetch.Response) body (details : string) :
  Fetch.body_json r = Some body ->
  member body "details" = Some (JStr details) ->
  details <> EmptyString ->
  Provider.errorMessage r = details.
Proof.
  intros Hb Hd Hne. unfold Provider.errorMessage. rewrite Hb.
  rewrite (get_member _ _ _ Hd). unfold or_else. simpl.
  apply String.eqb_neq in Hne. rewrite Hne. simpl. by rewrite Hne.
Qed.

Lemma errorMessage_error (r : Fetch.Response) body (message : string) :
  Fetch.body_json r = Some body ->
  body <> JNull ->
  member body "details" = None ->
  member body "error" = Some (JStr message) ->
  message <> EmptyString ->
  Provider.errorMessage r = message.
Proof.
  intros Hb Hn Hd He Hne. unfold Provider.errorMessage. rewrite Hb.
  rewrite (get_not_null _ _ Hn), Hd, He. unfold or_else. simpl.
  apply String.eqb_neq in Hne. by rewrite Hne.
Qed.

(** C6 on the provider.  The initiating POST returns 423 with a body
    whose [error] is "State file is locked".  The component stores its
    message about an analysis in progress; the provider stores the
    backend's text.  Neither reads a stream. *)
Theorem provider_startAnalysis_423_keeps_backend_text :
  Component.startAnalysis_response
    (Fetch.Resolved Scenario.response_locked) Component.initial
  = (Component.refuse
       "Analysis already in progress for this file. Please wait for it to complete."
       Component.initial, false)
  /\ exists st',
       Provider.startAnalysis Scenario.analysisData Scenario.now Scenario.now
         (Fetch.Resolved Scenario.response_locked) Provider.initial
       = (st', false)
       /\ (Provider.sessions st' !! Scenario.sid ≫= Provider.error)
          = Some (JStr "State file is locked")
       /\ (Provider.sessions st' !! Scenario.sid ≫= Provider.isAnalyzing)
          = Some false
       /\ Provider.activeStreams st' = ∅.
Proof.
  split; [reflexivity|].
  eexists. split; [reflexivity|].
  repeat split; vm_compute; reflexivity.
Qed.

End ErrorMapping.

(** ** The update handler on the whole store *)

Section HandlerShape.
Import JS Provider.

(** The handler, as a function of the session it finds. *)
Lemma handleStreamingUpdate_unfold sessionId data st :
  handleStreamingUpdate sessionId data st
  = match sessions st !! sessionId with
    | None => Ok st
    | Some session =>
        try! upd := (try! type := get (Some data) "type" in
                     update_session data type session) in
        Ok (set_activeStreams
              (if upd.2 then delete sessionId (activeStreams st)
               else activeStreams st)
              (set_sessions (<[sessionId := upd.1]> (sessions st)) st))
    end.
Proof.
  unfold handleStreamingUpdate. destruct (sessions st !! sessionId); [|done].
  destruct (get (Some data) "type") as [type|]; [|done]. simpl.
  destruct (update_session data type a) as [[s' c]|]; reflexivity.
Qed.

(** What a successful application did. *)
Lemma handleStreamingUpdate_Ok sessionId data st st' session :
  sessions st !! sessionId = Some session ->
  handleStreamingUpdate sessionId data st = Ok st' ->
  exists session' cleanup,
    data <> JNull
    /\ update_session data (member data "type") session = Ok (session', cleanup)
    /\ st' = set_activeStreams
               (if cleanup then delete sessionId (activeStreams st)
                else activeStreams st)
               (set_sessions (<[sessionId := session']> (sessions st)) st).
Proof.
  intros Hs Hh.
  destruct (null_or_not data) as [->|Hd].
  { unfold handleStreamingUpdate in Hh. rewrite Hs in Hh. discriminate. }
  rewrite (handleStreamingUpdate_stored _ _ _ _ Hs Hd) in Hh.
  destruct (update_session _ _ _) as [[s' c]|]; [|discriminate].
  injection Hh as <-. by exists s', c.
Qed.

(** The fields no case of the [switch] assigns. *)
Lemma update_session_keeps data type session session' cleanup :
  update_session data type session = Ok (session', cleanup) ->
  id session' = id session
  /\ analysisData session' = analysisData session
  /\ hasStarted session' = hasStarted session
  /\ timestamp session' = timestamp session.
Proof.
  unfold update_session. intros H.
  destruct (event_type type); unfold bind in H; simpl in H;
    repeat match type of H with
           | context [match ?x with _ => _ end] => destruct x; simpl in H
           end;
    try discriminate; injection H as <- <-; done.
Qed.

(** The cases that end the analysis, and what the others keep. *)
Lemma update_session_cleanup data session session' cleanup :
  update_session data (member data "type") session = Ok (session', cleanup) ->
  cleanup = Lifecycle.terminal data
  /\ (cleanup = false ->
      isAnalyzing session' = isAnalyzing session
      /\ analysisComplete session' = analysisComplete session
      /\ error session' = error session).
Proof.
  unfold update_session, Lifecycle.terminal. intros H.
  destruct (event_type (member data "type")); unfold bind in H; simpl in H;
    repeat match type of H with
           | context [match ?x with _ => _ end] => destruct x; simpl in H
           end;
    try discriminate; injection H as <- <-; done.
Qed.

End HandlerShape.

Section OneSession.
Import JS Provider.

Lemma state_eta (st : State) :
  {| sessions := sessions st; currentSession := currentSession st;
     activeStreams := activeStreams st; cancelled := cancelled st |} = st.
Proof. by destruct st. Qed.

Lemma state_eta_sessions (m : gmap string AnalysisSession) (st : State) :
  {| sessions := m; currentSession := currentSession st;
     activeStreams := activeStreams st; cancelled := cancelled st |}
  = set_sessions m st.
Proof. reflexivity. Qed.

Lemma handleStreamingUpdate_frame sessionId data st st' :
  handleStreamingUpdate sessionId data st = Ok st' ->
  (forall other, other <> sessionId ->
     sessions st' !! other = sessions st !! other)
  /\ (forall other, other <> sessionId ->
        activeStreams st' !! other = activeStreams st !! other)
  /\ dom (sessions st') = dom (sessions st)
  /\ currentSession st' = currentSession st
  /\ cancelled st' = cancelled st
  /\ (forall session, sessions st !! sessionId = Some session ->
        exists session',
          sessions st' !! sessionId = Some session'
          /\ id session' = id session
          /\ analysisData session' = analysisData session
          /\ hasStarted session' = hasStarted session
          /\ timestamp session' = timestamp session).
Proof.
  intros Hh. destruct (sessions st !! sessionId) as [session|] eqn:Hs.
  - destruct (handleStreamingUpdate_Ok _ _ _ _ _ Hs Hh) as (s' & c & _ & Hu & ->).
    simpl. split; [intros; by rewrite lookup_insert_ne|].
    split; [intros; destruct c; [by rewrite lookup_delete_ne|done]|].
    split; [apply dom_insert_lookup_L; by eexists|].
    split; [done|]. split; [done|].
    intros ? [= <-]. exists s'. rewrite lookup_insert_eq.
    split; [done|]. by apply (update_session_keeps _ _ _ _ _ Hu).
  - rewrite (handleStreamingUpdate_absent _ _ _ Hs) in Hh. injection Hh as <-.
    repeat split; try done; intros; congruence.
Qed.

(** X1. Events that are applied under a session id without a throw reach
    no other session: for every sequence of events the handler applies to
    its end, every other session and every other stream handle is as
    before, no session is added or removed, the current-session cell and
    the cancelled readers are untouched, and the session itself keeps its
    id, its request, its [hasStarted] and its timestamp.  A sequence on
    which the handler throws has no state after it. *)
Theorem events_touch_one_session
  (sessionId : string) (events : list json) :
  forall (st st' : State),
    apply_events sessionId events st = Ok st' ->
    (forall other, other <> sessionId ->
       sessions st' !! other = sessions st !! other)
    /\ (forall other, other <> sessionId ->
          activeStreams st' !! other = activeStreams st !! other)
    /\ dom (sessions st') = dom (sessions st)
    /\ currentSession st' = currentSession st
    /\ cancelled st' = cancelled st
    /\ (forall session, sessions st !! sessionId = Some session ->
          exists session',
            sessions st' !! sessionId = Some session'
            /\ id session' = id session
            /\ analysisData session' = analysisData session
            /\ hasStarted session' = hasStarted session
            /\ timestamp session' = timestamp session).
Proof.
  induction events as [|data rest IH]; intros st st' Happly; simpl in Happly.
  - injection Happly as <-. repeat split; try done. intros s Hs. by exists s.
  - destruct (handleStreamingUpdate sessionId data st) as [st1|] eqn:H1;
      [|discriminate].
    simpl in Happly.
    destruct (handleStreamingUpdate_frame _ _ _ _ H1)
      as (Ha & Hb & Hc & Hd & He & Hf).
    destruct (IH _ _ Happly) as (Ha' & Hb' & Hc' & Hd' & He' & Hf').
    split; [intros o Ho; by rewrite Ha', Ha|].
    split; [intros o Ho; by rewrite Hb', Hb|].
    split; [congruence|]. split; [congruence|]. split; [congruence|].
    intros s Hs. destruct (Hf s Hs) as (s1 & Hs1 & E1 & E2 & E3 & E4).
    destruct (Hf' s1 Hs1) as (s' & Hs' & E1' & E2' & E3' & E4').
    exists s'. repeat split; congruence.
Qed.

Lemma events_touch_one_session_witness :
  exists st',
    apply_events Scenario.sid Scenario.later_events Cases.two_sessions = Ok st'
    /\ is_Some (sessions Cases.two_sessions !! Cases.other_sid)
    /\ sessions st' !! Cases.other_sid
       = sessions Cases.two_sessions !! Cases.other_sid
    /\ activeStreams st' !! Cases.other_sid = Some {| reader := 2 |}
    /\ dom (sessions st') = {[ Scenario.sid; Cases.other_sid ]}
    /\ currentSession st' = currentSession Cases.two_sessions
    /\ resource_of Scenario.sid "s3" st' <> resource_of Scenario.sid "s3" Cases.two_sessions.
Proof.
  destruct (apply_events Scenario.sid Scenario.later_events Cases.two_sessions)
    as [st'|] eqn:Happly; [|vm_compute in Happly; discriminate].
  destruct (events_touch_one_session Scenario.sid Scenario.later_events
              Cases.two_sessions st' Happly) as (Hs & Ha & Hd & Hc & _).
  exists st'. split; [reflexivity|]. split; [by eexists|].
  split; [apply Hs; vm_compute; discriminate|].
  split; [rewrite Ha by (vm_compute; discriminate); vm_compute; reflexivity|].
  split; [rewrite Hd; vm_compute; reflexivity|].
  split; [exact Hc|].
  vm_compute in Happly. injection Happly as <-. vm_compute. discriminate.
Defined.

(** X2. An event whose [type] is none of the eight the handler knows (or
    that has no [type]) changes nothing at all: the handler returns the
    state it was given. *)
Theorem unknown_event_changes_nothing
  (sessionId : string) (data : json) (st : State) :
  data <> JNull ->
  event_type (member data "type") = unknown_event ->
  handleStreamingUpdate sessionId data st = Ok st.
Proof.
  intros Hd Ht. destruct (sessions st !! sessionId) as [session|] eqn:Hs.
  - rewrite (handleStreamingUpdate_stored _ _ _ _ Hs Hd).
    unfold update_session. rewrite Ht. simpl.
    unfold set_activeStreams, set_sessions. simpl.
    rewrite (insert_id _ _ _ Hs). by rewrite state_eta.
  - by apply handleStreamingUpdate_absent.
Qed.

Lemma unknown_event_changes_nothing_witness :
  handleStreamingUpdate Scenario.sid
    (JObj [("type", JStr "heartbeat"); ("resource", JStr "ec2")])
    Scenario.ec2_complete
  = Ok Scenario.ec2_complete.
Proof.
  apply (unknown_event_changes_nothing Scenario.sid
           (JObj [("type", JStr "heartbeat"); ("resource", JStr "ec2")])
           Scenario.ec2_complete).
  - discriminate.
  - reflexivity.
Defined.

End OneSession.

(** ** Replay and order of events *)

Section Replay.
Import JS Provider.

Lemma lookup_with_key (k : string) (v : value) (m : gmap string json) i :
  with_key k v m !! i = if decide (k = i) then v else m !! i.
Proof.
  unfold with_key. destruct v as [x|].
  - by rewrite lookup_insert.
  - by rewrite lookup_delete.
Qed.

(** Writing the same two keys again changes nothing. *)
Lemma with_key_twice (k j : string) (v : value) (a : json)
  (m : gmap string json) :
  with_key k v (<[j := a]> (with_key k v (<[j := a]> m)))
  = with_key k v (<[j := a]> m).
Proof.
  apply map_eq. intros i. rewrite !lookup_with_key.
  destruct (decide (k = i)); [done|].
  rewrite !lookup_insert. destruct (decide (j = i)); [done|].
  rewrite lookup_with_key. destruct (decide (k = i)); [done|].
  by rewrite lookup_insert_ne.
Qed.

Lemma group_update_twice entries m m' :
  group_update entries m = Ok m' -> group_update entries m' = Ok m'.
Proof.
  intros Hg. destruct (group_update_union _ _ _ Hg) as [M HM].
  rewrite HM in Hg. injection Hg as <-. rewrite HM. f_equal.
  by rewrite (assoc_L (∪)), (idemp_L (∪)).
Qed.

Lemma or_else_truthy a b : truthy b = true -> truthy (or_else a b) = true.
Proof. unfold or_else. by destruct (truthy a) eqn:Ha. Qed.

(** The [switch] applied to its own result gives that result. *)
Lemma update_session_twice data type session session' cleanup :
  update_session data type session = Ok (session', cleanup) ->
  update_session data type session' = Ok (session', cleanup).
Proof.
  unfold update_session. intros H.
  destruct (event_type type); simpl in H.
  - injection H as <- <-. simpl. by rewrite with_key_twice.
  - injection H as <- <-. simpl. by rewrite with_key_twice.
  - destruct (ToPropertyKey (member data "resource")) as [key|];
      simpl in H; [|discriminate].
    injection H as <- <-. simpl.
    unfold set_resourceResults; simpl. by rewrite insert_insert_eq.
  - destruct (batch data) as [resources|]; [|by injection H as <- <-].
    destruct (analysisResults session) as [results|]; [|discriminate].
    destruct (group_update _ _) as [updated|] eqn:Hg; [|discriminate].
    simpl in H. injection H as <- <-. simpl.
    rewrite (group_update_twice _ _ _ Hg). simpl.
    set (order := or_else (results !! "resources")
                          (Some (JArr (JStr <$> Object_keys resources)))).
    assert (Ht : truthy order = true) by (by apply or_else_truthy).
    destruct order as [o|] eqn:Ho; [|discriminate].
    simpl. rewrite lookup_insert_eq. unfold or_else. rewrite Ht.
    unfold set_resourceResults, set_analysisResults; simpl.
    by rewrite insert_insert_eq.
  - destruct (ToPropertyKey (member data "resource")) as [key|];
      simpl in H; [|discriminate].
    destruct (resourceResults session) as [results|]; [|discriminate].
    injection H as <- <-. simpl. rewrite lookup_insert_eq. simpl.
    unfold set_resourceResults; simpl. by rewrite insert_insert_eq.
  - destruct (ToPropertyKey (member data "resource")) as [key|];
      simpl in H; [|discriminate].
    destruct (resourceResults session) as [results|]; [|discriminate].
    injection H as <- <-. simpl. rewrite lookup_insert_eq. simpl.
    unfold set_resourceResults; simpl. by rewrite insert_insert_eq.
  - by injection H as <- <-.
  - by injection H as <- <-.
  - by injection H as <- <-.
Qed.

(** X3. Every event is idempotent under replay: for every event, of
    whatever type, and every state, applying the event twice gives what
    applying it once gives (a [TypeError] of the first application
    included). *)
Theorem every_event_replay_idempotent
  (sessionId : string) (data : json) (st : State) :
  (try! st1 := handleStreamingUpdate sessionId data st in
   handleStreamingUpdate sessionId data st1)
  = handleStreamingUpdate sessionId data st.
Proof.
  destruct (sessions st !! sessionId) as [session|] eqn:Hs.
  - destruct (null_or_not data) as [->|Hd].
    { unfold handleStreamingUpdate. by rewrite Hs. }
    rewrite (handleStreamingUpdate_stored _ _ _ _ Hs Hd).
    destruct (update_session data (member data "type") session)
      as [[s' c]|] eqn:Hu; [|reflexivity].
    simpl.
    erewrite handleStreamingUpdate_stored; [|apply lookup_insert_eq|exact Hd].
    rewrite (update_session_twice _ _ _ _ _ Hu). simpl.
    unfold set_activeStreams, set_sessions; simpl.
    rewrite insert_insert_eq. destruct c; [|done].
    by rewrite delete_delete_eq.
  - rewrite (handleStreamingUpdate_absent _ _ _ Hs). simpl.
    by apply handleStreamingUpdate_absent.
Qed.

(** X4. The events of two different sessions commute: applied in either
    order they give the same state, or raise in both orders. *)
Theorem events_of_different_sessions_commute
  (sid1 sid2 : string) (data1 data2 : json) (st : State) :
  sid1 <> sid2 ->
  (try! st1 := handleStreamingUpdate sid1 data1 st in
   handleStreamingUpdate sid2 data2 st1)
  = (try! st2 := handleStreamingUpdate sid2 data2 st in
     handleStreamingUpdate sid1 data1 st2).
Proof.
  intros Hne. rewrite (handleStreamingUpdate_unfold sid1 data1 st).
  rewrite (handleStreamingUpdate_unfold sid2 data2 st).
  destruct (sessions st !! sid1) as [s1|] eqn:H1;
    destruct (sessions st !! sid2) as [s2|] eqn:H2.
  - destruct (try! type := get (Some data1) "type" in update_session data1 type s1)
      as [[s1' c1]|] eqn:U1;
      destruct (try! type := get (Some data2) "type" in update_session data2 type s2)
        as [[s2' c2]|] eqn:U2; cbn [bind];
      rewrite ?handleStreamingUpdate_unfold;
      cbn [sessions activeStreams set_activeStreams set_sessions];
      rewrite ?lookup_insert_ne by done; rewrite ?H1, ?H2, ?U1, ?U2; cbn [bind];
      try reflexivity.
    cbn [fst snd]. unfold set_activeStreams, set_sessions.
    cbn [sessions activeStreams currentSession cancelled]. f_equal. f_equal.
    + by apply insert_insert_ne.
    + destruct c1, c2; try done. by apply delete_delete.
  - destruct (try! type := get (Some data1) "type" in update_session data1 type s1)
      as [[s1' c1]|] eqn:U1; cbn [bind];
      rewrite ?handleStreamingUpdate_unfold;
      cbn [sessions activeStreams set_activeStreams set_sessions];
      rewrite ?lookup_insert_ne by done; rewrite ?H1, ?H2, ?U1; cbn [bind];
      reflexivity.
  - destruct (try! type := get (Some data2) "type" in update_session data2 type s2)
      as [[s2' c2]|] eqn:U2; cbn [bind];
      rewrite ?handleStreamingUpdate_unfold;
      cbn [sessions activeStreams set_activeStreams set_sessions];
      rewrite ?lookup_insert_ne by done; rewrite ?H1, ?H2, ?U2; cbn [bind];
      reflexivity.
  - cbn [bind]. rewrite !handleStreamingUpdate_unfold. by rewrite H1, H2.
Qed.

Lemma events_of_different_sessions_commute_witness :
  is_Some (sessions Cases.two_sessions !! Scenario.sid)
  /\ is_Some (sessions Cases.two_sessions !! Cases.other_sid)
  /\ exists st',
       (try! st1 := handleStreamingUpdate Scenario.sid
                      (Scenario.ev_detection_complete "s3" Scenario.two_drifts)
                      Cases.two_sessions in
        handleStreamingUpdate Cases.other_sid (Scenario.ev_error "down") st1)
       = Ok st'
       /\ (try! st2 := handleStreamingUpdate Cases.other_sid
                         (Scenario.ev_error "down") Cases.two_sessions in
           handleStreamingUpdate Scenario.sid
             (Scenario.ev_detection_complete "s3" Scenario.two_drifts) st2)
          = Ok st'
       /\ (resource_of Scenario.sid "s3" st' ≫= detectionResults)
          = Some Scenario.two_drifts
       /\ (sessions st' !! Cases.other_sid ≫= error) = Some (JStr "down").
Proof.
  split; [by eexists|]. split; [by eexists|].
  eexists. split; [vm_compute; reflexivity|].
  split; [|split; vm_compute; reflexivity].
  rewrite <- (events_of_different_sessions_commute
                Scenario.sid Cases.other_sid
                (Scenario.ev_detection_complete "s3" Scenario.two_drifts)
                (Scenario.ev_error "down") Cases.two_sessions).
  - vm_compute. reflexivity.
  - vm_compute. discriminate.
Defined.

End Replay.

(** ** When the handler throws *)

Section Throws.
Import JS Provider Lifecycle.

Lemma is_null_spec (v : json) : is_null v = true <-> v = JNull.
Proof. destruct v; simpl; split; intros; done. Qed.

Lemma group_entry_throws (resourceData : json) :
  group_entry resourceData = TypeError <-> resourceData = JNull.
Proof. destruct resourceData; simpl; split; intros; done. Qed.

Lemma group_update_throws entries :
  forall m : gmap string ResourceResult,
    group_update entries m = TypeError
    <-> existsb is_null entries.*2 = true.
Proof.
  induction entries as [|[k rd] rest IH]; intros m; simpl.
  - split; intros; done.
  - destruct rd; simpl; try apply IH. split; intros; done.
Qed.

Lemma update_session_throws data session :
  well_formed session ->
  update_session data (member data "type") session = TypeError
  <-> has_null_record data = true \/ has_unconvertible_resource data = true.
Proof.
  intros [[results Ha] [entries Hr]].
  unfold update_session, has_null_record, has_unconvertible_resource.
  destruct (event_type (member data "type")); simpl;
    rewrite ?Ha, ?Hr; try (split; [done|by intros [?|?]]).
  - destruct (ToPropertyKey (member data "resource")); simpl;
      split; try done; [by intros [?|?]|by right].
  - destruct (batch data) as [resources|]; [|split; [done|by intros [?|?]]].
    simpl. rewrite <- (group_update_throws _ entries).
    destruct (group_update _ _); split; try done; [by intros [?|?]|by left].
  - destruct (ToPropertyKey (member data "resource")); simpl;
      split; try done; [by intros [?|?]|by right].
  - destruct (ToPropertyKey (member data "resource")); simpl;
      split; try done; [by intros [?|?]|by right].
Qed.

Lemma update_session_well_formed data type session session' cleanup :
  well_formed session ->
  update_session data type session = Ok (session', cleanup) ->
  well_formed session'.
Proof.
  intros [[results Ha] [entries Hr]]. unfold update_session, well_formed.
  intros H.
  destruct (event_type type); unfold bind in H; simpl in H;
    rewrite ?Ha, ?Hr in H; simpl in H;
    repeat match type of H with
           | context [match ?x with _ => _ end] => destruct x; simpl in H
           end;
    try discriminate; injection H as <- <-; simpl; rewrite ?Ha, ?Hr; split; by eexists.
Qed.

(** X5. On a session that has its two result objects, as every session
    [startAnalysis] stores has, the handler throws in three cases only: the
    event is [null]; it is a [resource_group_update] whose batch holds a
    record that is [null]; or it is a [resource_initialized],
    [detection_complete] or [report_complete] whose [resource] cannot be
    made a property key, being an object with an own [toString] or an array
    that holds one. *)
Theorem handler_throws_exactly_on_null_or_unconvertible_key
  (sessionId : string) (data : json) (st : State) (session : AnalysisSession) :
  sessions st !! sessionId = Some session ->
  well_formed session ->
  handleStreamingUpdate sessionId data st = TypeError
  <-> data = JNull \/ has_null_record data = true
      \/ has_unconvertible_resource data = true.
Proof.
  intros Hs Hwf. destruct (null_or_not data) as [->|Hd].
  - unfold handleStreamingUpdate. rewrite Hs. split; [by left|done].
  - rewrite (handleStreamingUpdate_stored _ _ _ _ Hs Hd).
    rewrite <- (update_session_throws _ _ Hwf).
    destruct (update_session _ _ _) as [[s' c]|]; simpl; split; try done.
    + by intros [?|?].
    + by right.
Qed.

Lemma handler_throws_exactly_on_null_or_unconvertible_key_witness :
  handleStreamingUpdate Scenario.sid
    (Scenario.ev_group_update [("ec2", JNull)]) Scenario.ec2_complete
  = TypeError
  /\ handleStreamingUpdate Scenario.sid Cases.ev_unconvertible
       Scenario.ec2_complete
     = TypeError
  /\ handleStreamingUpdate Scenario.sid
       (Scenario.ev_detection_complete "ec2" JNull) Scenario.ec2_complete
     <> TypeError.
Proof.
  split; [|split].
  - apply (handler_throws_exactly_on_null_or_unconvertible_key Scenario.sid
             (Scenario.ev_group_update [("ec2", JNull)])
             Scenario.ec2_complete Scenario.ec2_session);
      [vm_compute; reflexivity|split; by eexists|].
    right. left. reflexivity.
  - apply (handler_throws_exactly_on_null_or_unconvertible_key Scenario.sid
             Cases.ev_unconvertible
             Scenario.ec2_complete Scenario.ec2_session);
      [vm_compute; reflexivity|split; by eexists|].
    right. right. reflexivity.
  - intros Hthrown.
    apply (handler_throws_exactly_on_null_or_unconvertible_key Scenario.sid
             (Scenario.ev_detection_complete "ec2" JNull)
             Scenario.ec2_complete Scenario.ec2_session) in Hthrown;
      [|vm_compute; reflexivity|split; by eexists].
    destruct Hthrown as [Hnull|[Hrecord|Hkey]]; discriminate.
Defined.

(** X6. A stream without such events never makes the handler throw: from
    a session that has its two result objects, every sequence of events
    none of which is [null], carries a [null] record or names a resource
    that cannot be made a property key is applied to the end, and the
    session still has the two objects. *)
Theorem events_that_cannot_throw_are_applied
  (sessionId : string) (events : list json) :
  forall (st : State) (session : AnalysisSession),
    sessions st !! sessionId = Some session ->
    well_formed session ->
    Forall (fun data => data <> JNull /\ has_null_record data = false
                        /\ has_unconvertible_resource data = false) events ->
    exists st' session',
      apply_events sessionId events st = Ok st'
      /\ sessions st' !! sessionId = Some session'
      /\ well_formed session'.
Proof.
  induction events as [|data rest IH]; intros st session Hs Hwf Hall; simpl.
  - by exists st, session.
  - apply Forall_cons in Hall as [(Hd & Hn & Hk) Hall].
    rewrite (handleStreamingUpdate_stored _ _ _ _ Hs Hd).
    destruct (update_session data (member data "type") session)
      as [[s1 c]|] eqn:Hu.
    + simpl. apply (IH _ s1); [apply lookup_insert_eq| |done].
      by apply (update_session_well_formed _ _ _ _ _ Hwf Hu).
    + apply (update_session_throws _ _ Hwf) in Hu as [Hu|Hu]; congruence.
Qed.

Lemma events_that_cannot_throw_are_applied_witness :
  exists st' session',
    apply_events Scenario.sid Scenario.later_events Scenario.ec2_complete = Ok st'
    /\ sessions st' !! Scenario.sid = Some session'
    /\ well_formed session'.
Proof.
  apply (events_that_cannot_throw_are_applied Scenario.sid Scenario.later_events
           Scenario.ec2_complete Scenario.ec2_session).
  - vm_compute. reflexivity.
  - split; by eexists.
  - repeat constructor; discriminate.
Defined.

End Throws.

(** ** Detection and report of a resource, in either order *)

Section EitherOrder.
Import JS Provider Lifecycle.

Lemma update_session_report_complete data session results resource :
  member data "type" = Some (JStr "report_complete") ->
  ToPropertyKey (member data "resource") = Ok resource ->
  resourceResults session = Some results ->
  update_session data (member data "type") session =
    let old := spread_result (results !! resource) in
    Ok (set_resourceResults
          (<[resource :=
               {| status := status old;
                  detectionStatus := detectionStatus old;
                  reportStatus := Some (JStr "complete");
                  detectionResults := detectionResults old;
                  reportResults := member data "results" |}]> results)
          session, false).
Proof.
  intros Ht Hk Hr. unfold update_session. rewrite Ht. simpl.
  rewrite Hk. simpl. by rewrite Hr.
Qed.

Lemma update_session_report_complete_throws data session :
  member data "type" = Some (JStr "report_complete") ->
  ToPropertyKey (member data "resource") = TypeError ->
  update_session data (member data "type") session = TypeError.
Proof. intros Ht Hk. unfold update_session. rewrite Ht. simpl. by rewrite Hk. Qed.

Lemma update_session_no_results data type session :
  (event_type type = detection_complete \/ event_type type = report_complete) ->
  resourceResults session = None ->
  update_session data type session = TypeError.
Proof.
  intros [Ht|Ht] Hr; unfold update_session; rewrite Ht, Hr;
    by destruct (ToPropertyKey (member data "resource")).
Qed.

(** What the handler makes of an event that is not [null] and on which the
    [switch] throws. *)
Lemma handleStreamingUpdate_throws sessionId data st session :
  sessions st !! sessionId = Some session ->
  data <> JNull ->
  update_session data (member data "type") session = TypeError ->
  handleStreamingUpdate sessionId data st = TypeError.
Proof.
  intros Hs Hd Hu. by rewrite (handleStreamingUpdate_stored _ _ _ _ Hs Hd), Hu.
Qed.

(** X7. A [detection_complete] and a [report_complete] may come in either
    order, for the same resource or for two: both orders give the same
    state, in which, for the same resource, the entry is complete on both
    sides and holds both results. *)
Theorem detection_and_report_complete_commute
  (sessionId : string) (detection report : json) (st : State) :
  member detection "type" = Some (JStr "detection_complete") ->
  member report "type" = Some (JStr "report_complete") ->
  (try! st1 := handleStreamingUpdate sessionId detection st in
   handleStreamingUpdate sessionId report st1)
  = (try! st2 := handleStreamingUpdate sessionId report st in
     handleStreamingUpdate sessionId detection st2).
Proof.
  intros Hd Hr.
  pose proof (member_not_null _ _ _ Hd) as Hdn.
  pose proof (member_not_null _ _ _ Hr) as Hrn.
  destruct (sessions st !! sessionId) as [session|] eqn:Hs.
  - destruct (resourceResults session) as [results|] eqn:Hres.
    + destruct (ToPropertyKey (member detection "resource")) as [kd|] eqn:Hkd;
      destruct (ToPropertyKey (member report "resource")) as [kr|] eqn:Hkr.
      * rewrite !(handleStreamingUpdate_stored _ _ _ _ Hs) by done.
        rewrite (update_session_detection_complete _ _ _ _ Hd Hkd Hres).
        rewrite (update_session_report_complete _ _ _ _ Hr Hkr Hres).
        cbn [bind fst snd].
        erewrite handleStreamingUpdate_stored; [|apply lookup_insert_eq|exact Hrn].
        erewrite (handleStreamingUpdate_stored sessionId detection);
          [|apply lookup_insert_eq|exact Hdn].
        erewrite update_session_report_complete; [|exact Hr|exact Hkr|reflexivity].
        erewrite update_session_detection_complete;
          [|exact Hd|exact Hkd|reflexivity].
        cbn [bind fst snd].
        unfold set_activeStreams, set_sessions, set_resourceResults.
        cbn [sessions activeStreams currentSession cancelled id analysisData
             analysisResults resourceResults isAnalyzing analysisComplete
             hasStarted error timestamp].
        rewrite !insert_insert_eq.
        destruct (decide (kd = kr)) as [Heq|Hne].
        -- rewrite Heq, !lookup_insert_eq, !insert_insert_eq. reflexivity.
        -- rewrite lookup_insert_ne by done.
           rewrite (lookup_insert_ne _ kr) by done.
           by rewrite (insert_insert_ne _ _ _ _ _ Hne).
      * (* the report's resource is no key *)
        rewrite (handleStreamingUpdate_throws _ report _ _ Hs Hrn
                   (update_session_report_complete_throws _ _ Hr Hkr)).
        rewrite (handleStreamingUpdate_stored _ _ _ _ Hs Hdn).
        rewrite (update_session_detection_complete _ _ _ _ Hd Hkd Hres).
        cbn [bind fst snd].
        erewrite handleStreamingUpdate_throws;
          [reflexivity|apply lookup_insert_eq|exact Hrn|].
        by apply update_session_report_complete_throws.
      * (* the detection's resource is no key *)
        rewrite (handleStreamingUpdate_throws _ detection _ _ Hs Hdn
                   (update_session_detection_complete_throws _ _ Hd Hkd)).
        rewrite (handleStreamingUpdate_stored _ _ _ _ Hs Hrn).
        rewrite (update_session_report_complete _ _ _ _ Hr Hkr Hres).
        cbn [bind fst snd].
        erewrite handleStreamingUpdate_throws;
          [reflexivity|apply lookup_insert_eq|exact Hdn|].
        by apply update_session_detection_complete_throws.
      * rewrite (handleStreamingUpdate_throws _ detection _ _ Hs Hdn
                   (update_session_detection_complete_throws _ _ Hd Hkd)).
        by rewrite (handleStreamingUpdate_throws _ report _ _ Hs Hrn
                      (update_session_report_complete_throws _ _ Hr Hkr)).
    + rewrite !(handleStreamingUpdate_stored _ _ _ _ Hs) by done.
      rewrite !update_session_no_results; try done.
      * right. by rewrite Hr.
      * left. by rewrite Hd.
  - rewrite !(handleStreamingUpdate_absent _ _ _ Hs). cbn [bind].
    by rewrite !(handleStreamingUpdate_absent _ _ _ Hs).
Qed.

Lemma detection_and_report_complete_commute_witness :
  (try! st1 := handleStreamingUpdate Scenario.sid
                 (Scenario.ev_detection_complete "ec2" Scenario.two_drifts)
                 Scenario.streaming in
   handleStreamingUpdate Scenario.sid
     (JObj [("type", JStr "report_complete"); ("resource", JStr "ec2");
            ("results", JStr "two tags differ")]) st1)
  = (try! st2 := handleStreamingUpdate Scenario.sid
                   (JObj [("type", JStr "report_complete");
                          ("resource", JStr "ec2");
                          ("results", JStr "two tags differ")])
                   Scenario.streaming in
     handleStreamingUpdate Scenario.sid
       (Scenario.ev_detection_complete "ec2" Scenario.two_drifts) st2).
Proof.
  apply (detection_and_report_complete_commute Scenario.sid
           (Scenario.ev_detection_complete "ec2" Scenario.two_drifts)
           (JObj [("type", JStr "report_complete"); ("resource", JStr "ec2");
                  ("results", JStr "two tags differ")])
           Scenario.streaming).
  - reflexivity.
  - reflexivity.
Defined.

(** ** Streams that end without saying so *)

Lemma apply_events_not_terminal sessionId events :
  forall (st st' : State) (session : AnalysisSession),
    Forall (fun data => terminal data = false) events ->
    sessions st !! sessionId = Some session ->
    apply_events sessionId events st = Ok st' ->
    activeStreams st' = activeStreams st
    /\ exists session',
         sessions st' !! sessionId = Some session'
         /\ isAnalyzing session' = isAnalyzing session
         /\ analysisComplete session' = analysisComplete session
         /\ error session' = error session.
Proof.
  induction events as [|data rest IH]; intros st st' session Hall Hs Happly;
    simpl in Happly.
  - injection Happly as <-. split; [done|]. by exists session.
  - apply Forall_cons in Hall as [Hnt Hall].
    destruct (handleStreamingUpdate sessionId data st) as [st1|] eqn:H1;
      [|discriminate].
    simpl in Happly.
    destruct (handleStreamingUpdate_Ok _ _ _ _ _ Hs H1) as (s1 & c & _ & Hu & ->).
    destruct (update_session_cleanup _ _ _ _ Hu) as [Hc Hkeep].
    rewrite Hnt in Hc. subst c. destruct (Hkeep eq_refl) as (E1 & E2 & E3).
    destruct (IH _ _ s1 Hall (lookup_insert_eq _ _ _) Happly)
      as (Ha & s' & Hs' & E1' & E2' & E3').
    split; [exact Ha|]. exists s'. repeat split; congruence.
Qed.

(** X8. Only [analysis_complete] and [error] end an analysis in the
    provider.  When the stream is read to its end and none of its events is
    one of the two, the stream handle is released but the session is left
    as it was: still analyzing if it was, not complete, with the error it
    had. *)
Theorem readStream_without_terminal_event_leaves_session_analyzing
  (parse : string -> option json) (sessionId : string) (chunks : list string)
  (st st' : State) (session : AnalysisSession) :
  Forall (fun data => terminal data = false) (Stream.decode_chunks parse chunks) ->
  sessions st !! sessionId = Some session ->
  readStream parse sessionId chunks st = Ok st' ->
  activeStreams st' = delete sessionId (activeStreams st)
  /\ exists session',
       sessions st' !! sessionId = Some session'
       /\ isAnalyzing session' = isAnalyzing session
       /\ analysisComplete session' = analysisComplete session
       /\ error session' = error session.
Proof.
  intros Hall Hs Hread. unfold readStream in Hread.
  destruct (apply_events _ _ _) as [st1|] eqn:Happly; [|discriminate].
  simpl in Hread. injection Hread as <-.
  destruct (apply_events_not_terminal _ _ _ _ _ Hall Hs Happly) as (Ha & Hrest).
  simpl. by rewrite Ha.
Qed.

Lemma readStream_without_terminal_event_leaves_session_analyzing_witness :
  exists st',
    readStream JSON.parse Scenario.sid (take 1 Scenario.stream_A) Scenario.streaming
    = Ok st'
    /\ activeStreams st' = delete Scenario.sid (activeStreams Scenario.streaming)
    /\ exists session',
         sessions st' !! Scenario.sid = Some session'
         /\ isAnalyzing session' = Some true
         /\ analysisComplete session' = Some false
         /\ error session' = Some JNull.
Proof.
  destruct (readStream JSON.parse Scenario.sid (take 1 Scenario.stream_A)
              Scenario.streaming) as [st'|] eqn:Hread;
    [|vm_compute in Hread; discriminate].
  exists st'. split; [reflexivity|].
  apply (readStream_without_terminal_event_leaves_session_analyzing
           JSON.parse Scenario.sid (take 1 Scenario.stream_A)
           Scenario.streaming st'
           (newSession Scenario.analysisData Scenario.now Scenario.now)).
  - vm_compute. repeat constructor.
  - vm_compute. reflexivity.
  - exact Hread.
Defined.

(** ** The list of resources *)

Lemma update_session_keeps_resource_list data type session session' cleanup
  results (order : json) :
  event_type type <> analysis_started ->
  analysisResults session = Some results ->
  results !! "resources" = Some order ->
  truthy (Some order) = true ->
  update_session data type session = Ok (session', cleanup) ->
  exists results',
    analysisResults session' = Some results'
    /\ results' !! "resources" = Some order.
Proof.
  intros Hns Ha Ho Ht. unfold update_session. intros H.
  destruct (event_type type); try done; unfold bind in H; simpl in H;
    rewrite ?Ha in H; simpl in H.
  - injection H as <- <-. simpl. eexists. split; [reflexivity|].
    rewrite lookup_with_key. case_decide; [discriminate|].
    by rewrite lookup_insert_ne.
  - destruct (ToPropertyKey (member data "resource")); [|discriminate].
    injection H as <- <-. simpl. by exists results.
  - destruct (batch data) as [resources|].
    + destruct (group_update _ _) as [updated|]; [|discriminate].
      injection H as <- <-. simpl. eexists. split; [reflexivity|].
      rewrite Ho. unfold or_else. rewrite Ht. simpl. apply lookup_insert_eq.
    + injection H as <- <-. by exists results.
  - destruct (ToPropertyKey (member data "resource")); [|discriminate].
    destruct (resourceResults session); [|discriminate].
    injection H as <- <-. simpl. by exists results.
  - destruct (ToPropertyKey (member data "resource")); [|discriminate].
    destruct (resourceResults session); [|discriminate].
    injection H as <- <-. simpl. by exists results.
  - injection H as <- <-. simpl. by exists results.
  - injection H as <- <-. simpl. by exists results.
  - injection H as <- <-. by exists results.
Qed.

(** X9. Once a session has a list of resources (a truthy [resources] in
    its [analysisResults]), only an [analysis_started] event changes it:
    through every sequence of events without one, [resource_group_update]
    batches with other keys included, the list stays what it was. *)
Theorem resource_list_changed_only_by_analysis_started
  (sessionId : string) (events : list json) (order : json) :
  forall (st st' : State) (session : AnalysisSession)
         (results : gmap string json),
    Forall (fun data => event_type (member data "type") <> analysis_started)
           events ->
    sessions st !! sessionId = Some session ->
    analysisResults session = Some results ->
    results !! "resources" = Some order ->
    truthy (Some order) = true ->
    apply_events sessionId events st = Ok st' ->
    exists session' results',
      sessions st' !! sessionId = Some session'
      /\ analysisResults session' = Some results'
      /\ results' !! "resources" = Some order.
Proof.
  induction events as [|data rest IH];
    intros st st' session results Hall Hs Ha Ho Ht Happly; simpl in Happly.
  - injection Happly as <-. by exists session, results.
  - apply Forall_cons in Hall as [Hns Hall].
    destruct (handleStreamingUpdate sessionId data st) as [st1|] eqn:H1;
      [|discriminate].
    simpl in Happly.
    destruct (handleStreamingUpdate_Ok _ _ _ _ _ Hs H1) as (s1 & c & _ & Hu & ->).
    destruct (update_session_keeps_resource_list _ _ _ _ _ _ _ Hns Ha Ho Ht Hu)
      as (results1 & Ha1 & Ho1).
    by apply (IH _ _ s1 results1 Hall (lookup_insert_eq _ _ _) Ha1 Ho1 Ht Happly).
Qed.

Lemma resource_list_changed_only_by_analysis_started_witness :
  exists st' session' results',
    apply_events Scenario.sid Scenario.later_events Cases.started = Ok st'
    /\ sessions st' !! Scenario.sid = Some session'
    /\ analysisResults session' = Some results'
    /\ results' !! "resources" = Some (JArr [JStr "ec2"; JStr "s3"]).
Proof.
  destruct (apply_events Scenario.sid Scenario.later_events Cases.started)
    as [st'|] eqn:Happly; [|vm_compute in Happly; discriminate].
  destruct (resource_list_changed_only_by_analysis_started
              Scenario.sid Scenario.later_events (JArr [JStr "ec2"; JStr "s3"])
              Cases.started st' Cases.started_session
              {[ "status" := JStr "started";
                 "resources" := JArr [JStr "ec2"; JStr "s3"] ]}
              ltac:(repeat constructor; discriminate)
              ltac:(vm_compute; reflexivity) ltac:(reflexivity)
              ltac:(vm_compute; reflexivity) ltac:(reflexivity) Happly)
    as (session' & results' & H1 & H2 & H3).
  by exists st', session', results'.
Defined.

End EitherOrder.

(** ** Stopping and clearing *)

Section Stopping.
Import JS Provider Lifecycle.

Lemma apply_events_absent sessionId events :
  forall st, sessions st !! sessionId = None ->
             apply_events sessionId events st = Ok st.
Proof.
  induction events as [|data rest IH]; intros st Hs; simpl; [done|].
  rewrite (handleStreamingUpdate_absent _ _ _ Hs). simpl. by apply IH.
Qed.

(** X10. [stopAnalysis] for an id that is not stored adds a session to the
    store: an object that holds [isAnalyzing: false] and nothing else.  A
    [detection_complete] under that id, which the handler ignored before,
    makes it throw afterwards. *)
Theorem stopAnalysis_unknown_id_stores_partial_session
  (sessionId : string) (data : json) (st : State) :
  sessions st !! sessionId = None ->
  member data "type" = Some (JStr "detection_complete") ->
  sessions (stopAnalysis sessionId st)
    = <[sessionId := set_isAnalyzing false no_session]> (sessions st)
  /\ handleStreamingUpdate sessionId data st = Ok st
  /\ handleStreamingUpdate sessionId data (stopAnalysis sessionId st) = TypeError.
Proof.
  intros Hs Ht.
  assert (Hstop : sessions (stopAnalysis sessionId st)
                  = <[sessionId := set_isAnalyzing false no_session]> (sessions st)).
  { unfold stopAnalysis; simpl. by rewrite Hs. }
  split; [exact Hstop|]. split; [by apply handleStreamingUpdate_absent|].
  erewrite handleStreamingUpdate_stored;
    [|rewrite Hstop; apply lookup_insert_eq|exact (member_not_null _ _ _ Ht)].
  unfold update_session. rewrite Ht. simpl.
  by destruct (ToPropertyKey (member data "resource")).
Qed.

Lemma stopAnalysis_unknown_id_stores_partial_session_witness :
  sessions (stopAnalysis "gone" Scenario.ec2_complete)
    = <["gone" := set_isAnalyzing false no_session]>
        (sessions Scenario.ec2_complete)
  /\ handleStreamingUpdate "gone"
       (Scenario.ev_detection_complete "ec2" Scenario.two_drifts)
       Scenario.ec2_complete = Ok Scenario.ec2_complete
  /\ handleStreamingUpdate "gone"
       (Scenario.ev_detection_complete "ec2" Scenario.two_drifts)
       (stopAnalysis "gone" Scenario.ec2_complete) = TypeError.
Proof.
  apply (stopAnalysis_unknown_id_stores_partial_session "gone"
           (Scenario.ev_detection_complete "ec2" Scenario.two_drifts)
           Scenario.ec2_complete).
  - vm_compute. reflexivity.
  - reflexivity.
Defined.

(** X11. [stopAnalysis] is idempotent: a second call for the same id
    changes nothing, and cancels no reader again. *)
Theorem stopAnalysis_idempotent (sessionId : string) (st : State) :
  stopAnalysis sessionId (stopAnalysis sessionId st) = stopAnalysis sessionId st.
Proof.
  unfold stopAnalysis; simpl.
  rewrite lookup_insert_eq, lookup_delete_eq, insert_insert_eq, delete_delete_eq.
  reflexivity.
Qed.

(** X12. After [clearSession] the id is gone from the store and from the
    stream handles, the reader it had is cancelled, the other sessions and
    handles are as before, and every event that still arrives under the id
    leaves the state as it is. *)
Theorem clearSession_removes_and_silences
  (sessionId : string) (events : list json) (st : State) :
  sessions (clearSession sessionId st) = delete sessionId (sessions st)
  /\ activeStreams (clearSession sessionId st)
     = delete sessionId (activeStreams st)
  /\ (forall h, activeStreams st !! sessionId = Some h ->
        reader h ∈ cancelled (clearSession sessionId st))
  /\ apply_events sessionId events (clearSession sessionId st)
     = Ok (clearSession sessionId st).
Proof.
  assert (Hc : sessions (clearSession sessionId st) = delete sessionId (sessions st)).
  { unfold clearSession, stopAnalysis; simpl. by rewrite delete_insert_eq. }
  split; [exact Hc|]. split; [reflexivity|]. split.
  - intros h Hh. unfold clearSession, stopAnalysis; simpl. rewrite Hh.
    apply elem_of_union. left. by apply elem_of_singleton.
  - apply apply_events_absent. rewrite Hc. apply lookup_delete_eq.
Qed.

Lemma elem_of_added_l (i : string) (D : gset string) : i ∈ ({[i]} ∪ D : gset string).
Proof. apply elem_of_union. left. by apply elem_of_singleton. Qed.

Lemma elem_of_added_r (i k : string) (D : gset string) :
  k ∈ D -> k ∈ ({[i]} ∪ D : gset string).
Proof. intros. apply elem_of_union. by right. Qed.

Lemma elem_of_added_inv (i k : string) (D : gset string) :
  k ∈ ({[i]} ∪ D : gset string) -> k = i \/ k ∈ D.
Proof.
  intros [H|H]%elem_of_union; [left; by apply elem_of_singleton in H|by right].
Qed.

Lemma clearAllSessions_fold (st : State) :
  forall m : gmap string StreamHandle,
    let stopped :=
      map_fold (fun sessionId _ acc => stopAnalysis sessionId acc) st m in
    (forall k, activeStreams stopped !! k
               = if decide (k ∈ dom m) then None else activeStreams st !! k)
    /\ (forall r, r ∈ cancelled stopped <->
                  r ∈ cancelled st
                  \/ exists k h, k ∈ dom m /\ activeStreams st !! k = Some h
                                 /\ reader h = r).
Proof.
  apply (map_fold_weak_ind
           (fun (acc : State) (m : gmap string StreamHandle) =>
              (forall k, activeStreams acc !! k
                         = if decide (k ∈ dom m) then None
                           else activeStreams st !! k)
              /\ (forall r, r ∈ cancelled acc <->
                            r ∈ cancelled st
                            \/ exists k h, k ∈ dom m
                                           /\ activeStreams st !! k = Some h
                                           /\ reader h = r))).
  - split.
    + intros k. case_decide as Hk; [|done]. by rewrite dom_empty_L in Hk.
    + intros r. split; [by left|]. intros [?|(k & h & Hk & _)]; [done|].
      by rewrite dom_empty_L in Hk.
  - intros i x m acc Hi [Ha Hc].
    assert (Hin : i ∉ dom m) by (by apply not_elem_of_dom).
    assert (Hacc : activeStreams acc !! i = activeStreams st !! i).
    { rewrite Ha. by case_decide. }
    split.
    + intros k. unfold stopAnalysis; simpl. rewrite dom_insert_L.
      destruct (decide (k = i)) as [->|Hne].
      * rewrite lookup_delete_eq. case_decide as Hk; [done|].
        destruct Hk. apply elem_of_added_l.
      * rewrite lookup_delete_ne by done. rewrite Ha.
        destruct (decide (k ∈ dom m)) as [Hk|Hk];
          destruct (decide (k ∈ {[i]} ∪ dom m)) as [Hu|Hu]; try done.
        -- destruct Hu. by apply elem_of_added_r.
        -- by destruct (elem_of_added_inv _ _ _ Hu).
    + intros r. unfold stopAnalysis; simpl. rewrite dom_insert_L, Hacc.
      destruct (activeStreams st !! i) as [h|] eqn:Hh.
      * rewrite elem_of_union, elem_of_singleton, Hc. split.
        -- intros [->|[?|(k & h' & Hk & Hk' & Hr)]].
           ++ right. exists i, h. split; [apply elem_of_added_l|done].
           ++ by left.
           ++ right. exists k, h'. split; [by apply elem_of_added_r|done].
        -- intros [?|(k & h' & Hk & Hk' & Hr)]; [right; by left|].
           apply elem_of_union in Hk as [Hk|Hk].
           ++ apply elem_of_singleton in Hk as ->. left. congruence.
           ++ right. right. by exists k, h'.
      * rewrite Hc. split.
        -- intros [?|(k & h' & Hk & Hk' & Hr)]; [by left|].
           right. exists k, h'. split; [by apply elem_of_added_r|done].
        -- intros [?|(k & h' & Hk & Hk' & Hr)]; [by left|].
           apply elem_of_union in Hk as [Hk|Hk].
           ++ apply elem_of_singleton in Hk as ->. congruence.
           ++ right. by exists k, h'.
Qed.

(** X13. [clearAllSessions] leaves nothing behind: no session, no current
    session, no stream handle; and the readers cancelled afterwards are
    those cancelled before together with every reader that was registered. *)
Theorem clearAllSessions_clears_everything (st : State) :
  sessions (clearAllSessions st) = ∅
  /\ currentSession (clearAllSessions st) = None
  /\ activeStreams (clearAllSessions st) = ∅
  /\ (forall r, r ∈ cancelled (clearAllSessions st) <->
                r ∈ cancelled st
                \/ exists k h, activeStreams st !! k = Some h /\ reader h = r).
Proof.
  destruct (clearAllSessions_fold st (activeStreams st)) as [Ha Hc].
  split; [done|]. split; [done|]. split.
  - apply map_eq. intros k. unfold clearAllSessions; simpl. rewrite Ha.
    rewrite lookup_empty. case_decide as Hk; [done|].
    by apply not_elem_of_dom.
  - intros r. unfold clearAllSessions; simpl. rewrite Hc. split.
    + intros [?|(k & h & _ & Hk & Hr)]; [by left|]. right. by exists k, h.
    + intros [?|(k & h & Hk & Hr)]; [by left|]. right. exists k, h.
      split; [|done]. apply elem_of_dom. by eexists.
Qed.

End Stopping.

(** ** The calls of the context and the events *)

Section CallsAndEvents.
Import JS Provider Lifecycle.



(** X15. On a stored session, [updateResourceResults] with the two fields
    a [detection_complete] event sets, under the key the event's [resource]
    converts to, is that event: the same state, and the same [TypeError]
    when the session has no [resourceResults] or the [resource] is no
    key. *)
Theorem updateResourceResults_is_detection_complete
  (sessionId : string) (data : json) (st : State) (session : AnalysisSession) :
  sessions st !! sessionId = Some session ->
  member data "type" = Some (JStr "detection_complete") ->
  (try! resource := ToPropertyKey (member data "resource") in
   updateResourceResults sessionId resource
     {| Partial.status := None;
        Partial.detectionStatus := Some (Some (JStr "complete"));
        Partial.reportStatus := None;
        Partial.detectionResults := Some (member data "results");
        Partial.reportResults := None |} st)
  = handleStreamingUpdate sessionId data st.
Proof.
  intros Hs Ht.
  rewrite (handleStreamingUpdate_stored _ _ _ _ Hs (member_not_null _ _ _ Ht)).
  unfold updateResourceResults, update_session. rewrite Hs, Ht. simpl.
  destruct (ToPropertyKey (member data "resource")) as [resource|]; [|reflexivity].
  simpl. destruct (resourceResults session) as [entries|]; [|reflexivity].
  simpl. unfold set_activeStreams, set_sessions. simpl. by rewrite state_eta_sessions.
Qed.

Lemma updateResourceResults_is_detection_complete_witness :
  updateResourceResults Scenario.sid "s3"
    {| Partial.status := None;
       Partial.detectionStatus := Some (Some (JStr "complete"));
       Partial.reportStatus := None;
       Partial.detectionResults := Some (Some Scenario.two_drifts);
       Partial.reportResults := None |} Scenario.ec2_complete
  = handleStreamingUpdate Scenario.sid
      (Scenario.ev_detection_complete "s3" Scenario.two_drifts)
      Scenario.ec2_complete.
Proof.
  apply (updateResourceResults_is_detection_complete Scenario.sid
           (Scenario.ev_detection_complete "s3" Scenario.two_drifts)
           Scenario.ec2_complete Scenario.ec2_session).
  - vm_compute. reflexivity.
  - reflexivity.
Defined.

(** ** [startAnalysis] when no stream is read *)

(** X16. Whenever [startAnalysis] does not go on to read a stream (the
    request is rejected, the response is not [ok], or it has no body), the
    new session is stored as failed: not analyzing, with a message as its
    error, with empty results; and the stream handles are as before. *)
Theorem startAnalysis_without_stream_stores_failed_session
  (analysisData : AnalysisData) (now1 now2 : Z) (o : Fetch.Outcome)
  (st : State) :
  (startAnalysis analysisData now1 now2 o st).2 = false ->
  activeStreams (startAnalysis analysisData now1 now2 o st).1 = activeStreams st
  /\ exists message,
       sessions (startAnalysis analysisData now1 now2 o st).1
       = <[generateSessionId analysisData now1 :=
             set_isAnalyzing false
               (set_error (Some (JStr message))
                  (newSession analysisData now1 now2))]> (sessions st).
Proof.
  unfold startAnalysis, startAnalysis_response. intros H.
  assert (Hfail : forall message,
            sessions (fail_session (generateSessionId analysisData now1) message
                        (startAnalysis_begin analysisData now1 now2 st))
            = <[generateSessionId analysisData now1 :=
                  set_isAnalyzing false
                    (set_error (Some (JStr message))
                       (newSession analysisData now1 now2))]> (sessions st)).
  { intros message. unfold fail_session, startAnalysis_begin. simpl.
    rewrite lookup_insert_eq. simpl. by rewrite insert_insert_eq. }
  destruct o as [r|message].
  - destruct (Fetch.ok r).
    + destruct (Fetch.body_reader r); [discriminate|].
      split; [reflexivity|]. eexists. apply Hfail.
    + split; [reflexivity|]. eexists. apply Hfail.
  - split; [reflexivity|]. eexists. apply Hfail.
Qed.

Lemma startAnalysis_without_stream_stores_failed_session_witness :
  activeStreams
    (startAnalysis Scenario.analysisData Scenario.now Scenario.now
       (Fetch.Resolved Cases.response_plain) Provider.initial).1
  = activeStreams Provider.initial
  /\ exists message,
       sessions
         (startAnalysis Scenario.analysisData Scenario.now Scenario.now
            (Fetch.Resolved Cases.response_plain) Provider.initial).1
       = <[generateSessionId Scenario.analysisData Scenario.now :=
             set_isAnalyzing false
               (set_error (Some (JStr message))
                  (newSession Scenario.analysisData Scenario.now Scenario.now))]>
           (sessions Provider.initial).
Proof.
  apply (startAnalysis_without_stream_stores_failed_session
           Scenario.analysisData Scenario.now Scenario.now
           (Fetch.Resolved Cases.response_plain) Provider.initial).
  reflexivity.
Defined.

(** X17. The message for a response that is not [ok]: when the body is
    not JSON it is the status line, ["HTTP <status>: <statusText>"]; when
    the body is JSON but has neither a truthy [details] nor a truthy
    [error], it is ["Analysis failed with status <status>"]. *)
Theorem errorMessage_without_backend_text (r : Fetch.Response) :
  (Fetch.body_json r = None ->
   errorMessage r
   = "HTTP " +:+ pretty (Fetch.status r) +:+ ": " +:+ Fetch.statusText r)
  /\ (forall body,
        Fetch.body_json r = Some body ->
        body <> JNull ->
        truthy (member body "details") = false ->
        truthy (member body "error") = false ->
        errorMessage r
        = "Analysis failed with status " +:+ pretty (Fetch.status r)).
Proof.
  unfold errorMessage. split.
  - intros ->. simpl. unfold or_else. simpl.
    destruct (String.eqb_spec
                ("HTTP " +:+ pretty (Fetch.status r) +:+ ": " +:+ Fetch.statusText r)
                EmptyString) as [Heq|Hne]; [discriminate|reflexivity].
  - intros body -> Hn Hd He. rewrite (get_not_null _ _ Hn).
    unfold or_else. rewrite Hd, He. reflexivity.
Qed.

Lemma errorMessage_without_backend_text_witness :
  errorMessage Cases.response_plain = "HTTP 502: Bad Gateway"
  /\ errorMessage Cases.response_empty_object = "Analysis failed with status 500".
Proof.
  split.
  - apply (proj1 (errorMessage_without_backend_text Cases.response_plain)).
    reflexivity.
  - apply (proj2 (errorMessage_without_backend_text Cases.response_empty_object)
             (JObj [])); [reflexivity|discriminate|reflexivity|reflexivity].
Defined.

End CallsAndEvents.

(** ** Whole lines inside a chunk *)

Section WholeLines.
Import JS Stream Lines.

Variable parse : string -> option json.

Lemma split_one_line s : one_line s = true -> split s = [s].
Proof.
  induction s as [|c r IH]; [done|]. simpl.
  destruct (Ascii.eqb c JSON.newline); [done|]. simpl. intros H.
  by rewrite (IH H).
Qed.

Lemma line_aligned_newline s :
  line_aligned (s +:+ String JSON.newline EmptyString) = true.
Proof.
  induction s as [|c r IH]; [reflexivity|].
  change (String c r +:+ String JSON.newline EmptyString)
    with (String c (r +:+ String JSON.newline EmptyString)).
  cbn [line_aligned].
  destruct (r +:+ String JSON.newline EmptyString) as [|c' r'] eqn:E; [|exact IH].
  by destruct r.
Qed.

Lemma decode_data_line payload event :
  one_line payload = true ->
  parse payload = Some event ->
  decode_chunk parse ("data: " +:+ payload +:+ String JSON.newline EmptyString)
  = [event].
Proof.
  intros Hone Hp. unfold decode_chunk.
  rewrite <- (append_assoc "data: " payload).
  rewrite (split_at_newline ("data: " +:+ payload) EmptyString).
  rewrite (split_one_line ("data: " +:+ payload)) by exact Hone.
  assert (Hl : decode_line parse ("data: " +:+ payload) = Some event).
  { rewrite <- Hp. unfold decode_line, startsWith_data. by destruct payload. }
  remember ("data: " +:+ payload) as line. simpl. by rewrite Hl.
Qed.

(** X18. A line that is whole inside a chunk is never lost: when the text
    before it ends at a line end, the record has no line break and parses,
    the chunk yields the events before the line, then the record's event,
    then the events after it. *)
Theorem whole_line_in_chunk_is_decoded
  (before payload after : string) (event : json) :
  line_aligned before = true ->
  one_line payload = true ->
  parse payload = Some event ->
  decode_chunk parse (around before payload after)
  = decode_chunk parse before ++ [event] ++ decode_chunk parse after.
Proof.
  intros Hb Hone Hp. unfold around, decode_chunk at 1.
  rewrite (decode_aligned_prefix parse _ _ Hb).
  rewrite <- (append_assoc "data: " payload).
  rewrite (decode_aligned_prefix parse _ _ (line_aligned_newline _)).
  rewrite (append_assoc "data: " payload).
  by rewrite (decode_data_line _ _ Hone Hp).
Qed.

End WholeLines.

Section WholeLinesOnText.
Import JS Stream Lines.

Lemma whole_line_in_chunk_is_decoded_witness :
  decode_chunk JSON.parse
    (around (": keep-alive" +:+ String JSON.newline EmptyString)
            ("{" +:+ JSON.str "type" +:+ ":" +:+ JSON.str "analysis_complete" +:+ "}")
            "data: {")
  = decode_chunk JSON.parse (": keep-alive" +:+ String JSON.newline EmptyString)
    ++ [JObj [("type", JStr "analysis_complete")]]
    ++ decode_chunk JSON.parse "data: {".
Proof.
  apply (whole_line_in_chunk_is_decoded JSON.parse
           (": keep-alive" +:+ String JSON.newline EmptyString)
           ("{" +:+ JSON.str "type" +:+ ":" +:+ JSON.str "analysis_complete" +:+ "}")
           "data: {" (JObj [("type", JStr "analysis_complete")])).
  - reflexivity.
  - reflexivity.
  - vm_compute. reflexivity.
Defined.

End WholeLinesOnText.

(** ** The component after a failed start *)

Section Rearming.
Import JS.

(** X19. After the component started an analysis, a response with status
    423, 401 or 403 leaves it blocked: [startAnalysis] returns at its guard
    and the mount effect's condition is false.  Every other way of ending
    without a stream (a rejected request, another status that is not [ok],
    a response without body) re-arms it: the condition of the mount effect
    holds again and [startAnalysis] passes its guard, so the request is
    sent again. *)
Theorem component_rearmed_unless_known_status
  (analysisData : Component.AnalysisData) (o : Fetch.Outcome)
  (st started : Component.State) :
  Component.startAnalysis_begin (Some analysisData) st = (started, true) ->
  (Component.startAnalysis_response o started).2 = false ->
  let ended := (Component.startAnalysis_response o started).1 in
  let known :=
    match o with
    | Fetch.Resolved r =>
        (Fetch.status r =? 423) || (Fetch.status r =? 401)
        || (Fetch.status r =? 403)
    | Fetch.Rejected _ => false
    end in
  Streaming.effect_starts (Some analysisData) ended = negb known
  /\ (Component.startAnalysis_begin (Some analysisData) ended).2 = negb known
  /\ Component.isAnalyzing ended = false
  /\ is_Some (Component.error ended).
Proof.
  unfold Component.startAnalysis_begin. simpl.
  destruct (Component.isAnalyzing st || Component.hasStarted st
            || Component.analysisStartedRef st); [discriminate|].
  intros [= <-]. unfold Component.startAnalysis_response.
  destruct o as [r|message]; [|by intros _].
  unfold Fetch.ok.
  destruct (Fetch.status r =? 423) eqn:E1.
  { apply Z.eqb_eq in E1. rewrite E1. by intros _. }
  destruct (Fetch.status r =? 401) eqn:E2.
  { apply Z.eqb_eq in E2. rewrite E2. by intros _. }
  destruct (Fetch.status r =? 403) eqn:E3.
  { apply Z.eqb_eq in E3. rewrite E3. by intros _. }
  destruct ((200 <=? Fetch.status r) && (Fetch.status r <=? 299)).
  - destruct (Fetch.body_reader r); [discriminate|]. by intros _.
  - by intros _.
Qed.

Lemma component_rearmed_unless_known_status_witness :
  let started := (Component.startAnalysis_begin (Some Scenario.analysisData)
                    Component.initial).1 in
  let ended := (Component.startAnalysis_response
                  (Fetch.Resolved Cases.response_plain) started).1 in
  Streaming.effect_starts (Some Scenario.analysisData) ended = true
  /\ (Component.startAnalysis_begin (Some Scenario.analysisData) ended).2 = true
  /\ Component.isAnalyzing ended = false
  /\ is_Some (Component.error ended).
Proof.
  apply (component_rearmed_unless_known_status Scenario.analysisData
           (Fetch.Resolved Cases.response_plain) Component.initial
           (Component.startAnalysis_begin (Some Scenario.analysisData)
              Component.initial).1).
  - reflexivity.
  - reflexivity.
Defined.

End Rearming.

(** ** The two update handlers *)

Section TwoHandlers.
Import JS Provider.

Lemma updates_same_outcome data type session (st : Component.State) :
  Streaming.same_results session st ->
  Streaming.same_outcome (update_session data type session)
                         (Streaming.updates data type st).
Proof.
  intros (Ha & Hr & He & Hc).
  unfold update_session, Streaming.updates, Streaming.same_outcome,
    Streaming.same_results.
  destruct (event_type type); rewrite ?Ha, ?Hr; simpl; try done.
  - by destruct (ToPropertyKey (member data "resource")).
  - destruct (batch data) as [resources|]; [|done].
    destruct (group_update _ _) as [updated|]; simpl; done.
  - by destruct (ToPropertyKey (member data "resource")).
  - by destruct (ToPropertyKey (member data "resource")).
Qed.

(** X20. The handler of the provider and the handler of the component do
    the same to the results.  From a session and a component state that
    hold the same [analysisResults], [resourceResults], [error] and
    [analysisComplete], an event that is not [null] either makes both
    throw, or leaves a session and a state that hold the same four again. *)
Theorem provider_and_component_handlers_agree
  (sessionId : string) (data : json) (st : State) (session : AnalysisSession)
  (c : Component.State) :
  sessions st !! sessionId = Some session ->
  Streaming.same_results session c ->
  data <> JNull ->
  match handleStreamingUpdate sessionId data st,
        Streaming.process_event data c with
  | Ok st', Ok c' =>
      exists session',
        sessions st' !! sessionId = Some session'
        /\ Streaming.same_results session' c'
  | TypeError, TypeError => True
  | _, _ => False
  end.
Proof.
  intros Hs Hsame Hd.
  rewrite (handleStreamingUpdate_stored _ _ _ _ Hs Hd).
  unfold Streaming.process_event, Streaming.handleStreamingUpdate.
  rewrite (get_not_null _ _ Hd). cbn [bind].
  pose proof (updates_same_outcome data (member data "type") _ _ Hsame) as H.
  unfold Streaming.same_outcome in H.
  destruct (update_session data (member data "type") session) as [[s' cl]|];
    destruct (Streaming.updates data (member data "type") c) as [c'|];
    cbn [bind]; try done.
  exists s'. split; [|exact H]. simpl. apply lookup_insert_eq.
Qed.

Lemma provider_and_component_handlers_agree_witness :
  match handleStreamingUpdate Scenario.sid
          (Scenario.ev_group_update [("s3", JObj [("status", JStr "completed")])])
          Scenario.ec2_complete,
        Streaming.process_event
          (Scenario.ev_group_update [("s3", JObj [("status", JStr "completed")])])
          ComponentCases.ec2_complete with
  | Ok st', Ok c' =>
      exists session',
        sessions st' !! Scenario.sid = Some session'
        /\ Streaming.same_results session' c'
  | TypeError, TypeError => True
  | _, _ => False
  end.
Proof.
  apply (provider_and_component_handlers_agree Scenario.sid
           (Scenario.ev_group_update [("s3", JObj [("status", JStr "completed")])])
           Scenario.ec2_complete Scenario.ec2_session
           ComponentCases.ec2_complete).
  - vm_compute. reflexivity.
  - repeat split.
  - discriminate.
Defined.

(** X21. The line [data: null] is a line of the stream that parses.  The
    component drops the event: its handler throws at [data.type], under
    the [try] that guards the parsing.  In the provider the same event
    makes the update of a stored session throw. *)
Theorem null_event_dropped_by_component_thrown_by_provider
  (sessionId : string) (st : State) (session : AnalysisSession)
  (c : Component.State) :
  sessions st !! sessionId = Some session ->
  Stream.decode_chunk JSON.parse ("data: null" +:+ String JSON.newline EmptyString)
    = [JNull]
  /\ Streaming.handleStreamingUpdate JNull c = TypeError
  /\ Streaming.process_event JNull c = Ok c
  /\ handleStreamingUpdate sessionId JNull st = TypeError.
Proof.
  intros Hs. split; [vm_compute; reflexivity|].
  split; [reflexivity|]. split; [reflexivity|].
  unfold handleStreamingUpdate. by rewrite Hs.
Qed.

Lemma null_event_dropped_by_component_thrown_by_provider_witness :
  Stream.decode_chunk JSON.parse ("data: null" +:+ String JSON.newline EmptyString)
    = [JNull]
  /\ Streaming.handleStreamingUpdate JNull ComponentCases.ec2_complete = TypeError
  /\ Streaming.process_event JNull ComponentCases.ec2_complete
     = Ok ComponentCases.ec2_complete
  /\ handleStreamingUpdate Scenario.sid JNull Scenario.ec2_complete = TypeError.
Proof.
  apply (null_event_dropped_by_component_thrown_by_provider Scenario.sid
           Scenario.ec2_complete Scenario.ec2_session ComponentCases.ec2_complete).
  vm_compute. reflexivity.
Defined.

End TwoHandlers.

(** ** The views of the component *)

Section Views.
Import JS Provider.

(** X22. [handleResourceToggle] is an involution that touches one id: the
    resource is expanded afterwards exactly when it was not before, every
    other resource stays as it was, and toggling twice gives the set back. *)
Theorem handleResourceToggle_involution (resourceId : string) (prev : gset string) :
  Streaming.handleResourceToggle resourceId
    (Streaming.handleResourceToggle resourceId prev) = prev
  /\ (resourceId ∈ Streaming.handleResourceToggle resourceId prev
      <-> resourceId ∉ prev)
  /\ (forall other, other <> resourceId ->
        (other ∈ Streaming.handleResourceToggle resourceId prev <-> other ∈ prev)).
Proof.
  assert (Hmem : forall x,
            x ∈ Streaming.handleResourceToggle resourceId prev
            <-> (x = resourceId /\ resourceId ∉ prev)
                \/ (x <> resourceId /\ x ∈ prev)).
  { intros x. unfold Streaming.handleResourceToggle.
    destruct (decide (resourceId ∈ prev)) as [Hin|Hout].
    - rewrite elem_of_difference, elem_of_singleton. split.
      + intros [Hx Hne]. by right.
      + intros [[-> Hn]|[Hne Hx]]; done.
    - rewrite elem_of_union, elem_of_singleton. split.
      + intros [Hx| ->]; [|by left]. right. split; [|done]. by intros ->.
      + intros [[-> Hn]|[Hne Hx]]; [by right|by left]. }
  split; [|split].
  - apply set_eq. intros x.
    unfold Streaming.handleResourceToggle at 1.
    destruct (decide (resourceId ∈ Streaming.handleResourceToggle resourceId prev))
      as [Hin|Hout].
    + apply Hmem in Hin as [[_ Hn]|[Hne _]]; [|done].
      rewrite elem_of_difference, elem_of_singleton, Hmem. split.
      * intros [[[-> _]|[_ Hx]] Hne]; done.
      * intros Hx. assert (x <> resourceId) by (by intros ->). split; [by right|done].
    + rewrite elem_of_union, elem_of_singleton, Hmem.
      assert (Hp : resourceId ∈ prev).
      { destruct (decide (resourceId ∈ prev)) as [|Hn]; [done|].
        destruct Hout. apply Hmem. by left. }
      split.
      * intros [[[-> _]|[_ Hx]]| ->]; done.
      * intros Hx. destruct (decide (x = resourceId)) as [->|Hne]; [by right|].
        left. by right.
  - rewrite Hmem. split; [intros [[_ ?]|[? _]]; done|by left].
  - intros other Hne. rewrite Hmem. split; [intros [[? _]|[_ ?]]; done|by right].
Qed.

(** X23. The count on a resource's card and the list in its report agree
    when the detection result has a [drifts] list and no [drift_count]:
    the report lists those drifts and the card counts them.  For a
    detection result that is a list itself they differ: the report lists
    its elements, the card shows zero. *)
Theorem card_count_and_report_list
  (results : ResourceResult) (data : json) (drifts : list json) :
  detectionResults results = Some data ->
  (member data "drift_count" = None ->
   member data "drifts" = Some (JArr drifts) ->
   Streaming.report_drifts (Some data) = Some drifts
   /\ Component.getDriftCount (Some results) = JNum (Z.of_nat (length drifts)))
  /\ (data = JArr drifts ->
      Streaming.report_drifts (Some data) = Some drifts
      /\ Component.getDriftCount (Some results) = JNum 0).
Proof.
  intros Hd. unfold Streaming.report_drifts, Component.getDriftCount.
  rewrite Hd. split.
  - intros Hc Hl. destruct data; simpl in *; try discriminate.
    by rewrite Hc, Hl.
  - intros ->. simpl. done.
Qed.

Lemma card_count_and_report_list_witness :
  Streaming.report_drifts (detectionResults ComponentCases.bare_list)
    = Some [JObj [("type", JStr "missing")]; JObj [("type", JStr "orphaned")]]
  /\ Component.getDriftCount (Some ComponentCases.bare_list) = JNum 0.
Proof.
  apply (proj2 (card_count_and_report_list ComponentCases.bare_list
                  (JArr [JObj [("type", JStr "missing")];
                         JObj [("type", JStr "orphaned")]])
                  [JObj [("type", JStr "missing")]; JObj [("type", JStr "orphaned")]]
                  eq_refl)).
  reflexivity.
Defined.

End Views.

(** ** [updateAnalysisResults] *)

Section UpdateAnalysisResults.
Import JS Provider Lifecycle.

Lemma lookup_assign (results : gmap string value) (base : gmap string json) i :
  assign results base !! i
  = match results !! i with
    | Some v => v
    | None => base !! i
    end.
Proof.
  unfold assign. rewrite lookup_merge.
  destruct (results !! i) as [v|], (base !! i); reflexivity.
Qed.

(** X24. On a stored session, [updateAnalysisResults] with the two fields
    a [session_initialized] event sets is that event: the status becomes
    ['session_initialized'], [session_dir] the event's (absent when the
    event has none), and every other key of [analysisResults] is kept. *)
Theorem updateAnalysisResults_is_session_initialized
  (sessionId : string) (data : json) (st : State) (session : AnalysisSession) :
  sessions st !! sessionId = Some session ->
  member data "type" = Some (JStr "session_initialized") ->
  Ok (updateAnalysisResults sessionId
        {[ "status" := Some (JStr "session_initialized");
           "session_dir" := member data "session_dir" ]} st)
  = handleStreamingUpdate sessionId data st.
Proof.
  intros Hs Ht.
  rewrite (handleStreamingUpdate_stored _ _ _ _ Hs (member_not_null _ _ _ Ht)).
  unfold updateAnalysisResults, update_session. rewrite Hs, Ht. simpl.
  unfold set_activeStreams, set_sessions. simpl. do 4 f_equal.
  apply map_eq. intros i. rewrite lookup_assign, lookup_with_key.
  destruct (decide ("session_dir" = i)) as [<-|Hdir].
  - rewrite lookup_insert_ne by done. by rewrite lookup_singleton_eq.
  - destruct (decide ("status" = i)) as [<-|Hstatus].
    + by rewrite !lookup_insert_eq.
    + by rewrite !lookup_insert_ne, lookup_singleton_ne by done.
Qed.

Lemma updateAnalysisResults_is_session_initialized_witness :
  Ok (updateAnalysisResults Scenario.sid
        {[ "status" := Some (JStr "session_initialized");
           "session_dir" := Some (JStr "/tmp/s1") ]} Scenario.ec2_complete)
  = handleStreamingUpdate Scenario.sid
      (JObj [("type", JStr "session_initialized");
             ("session_dir", JStr "/tmp/s1")])
      Scenario.ec2_complete.
Proof.
  apply (updateAnalysisResults_is_session_initialized Scenario.sid
           (JObj [("type", JStr "session_initialized");
                  ("session_dir", JStr "/tmp/s1")])
           Scenario.ec2_complete Scenario.ec2_session).
  - vm_compute. reflexivity.
  - reflexivity.
Defined.

End UpdateAnalysisResults.
